(* ===== verification/_CoqProject ===== *)
-Q . S2P
Prelude.v
PyRuntime.v
Heap.v
Merger.v
EstimatorSpec.v
AppendHooks.v
Engine.v
Wrapper.v
SpecInvariant.v
StopHook.v
Process.v
