(* ===== verification/Prelude.v ===== *)
(** * WSAM hook injection: a verification development

    This development models [src/dlrover/trainer/tensorflow/util/estimator_util.py]
    of the DLRover trainer. That file injects session hooks into a TensorFlow
    [Estimator] by monkey-patching [Estimator._call_model_fn]. Two
    components interact:

    - the Hook Merger: [append_hooks] with its nested [_unique] (lines
      22-53). For one hook category it copies the hooks configured in
      [params[key]], puts them before the hooks already on the
      [EstimatorSpec], and drops every later hook whose
      [__class__.__name__] was already seen. It logs the configured names,
      one warning per dropped hook and the merged names, and returns
      [estimator_spec._replace(key=...)]. With no configured hooks it
      returns the spec unchanged;
    - the Interception Wrapper: [hook_estimator_call_model_fn] and its
      closure [dlrover_call_model_fn] (lines 56-92). Installing replaces
      the class attribute [Estimator._call_model_fn] with a closure over
      the previous attribute and the [params] dict. A call of the closure
      builds an early-stopping hook whose predicate [should_stop_fn] reads
      ["should_stop"] from the process-wide [GlobalDict], then calls the
      captured method. When [params] is truthy it appends the hook to the
      list [params.get("training_hooks", [])] (the caller's own list) and
      runs [append_hooks] for the four categories in the order of [keys].

    ** Files, in dependency order

    - [Prelude] (this file): the state and exception monad [stx] with its
      [let*] notation in [stx_scope], the monad laws and running lemmas,
      the [wsam] and [wsam_rw] hint databases, the tactics [stx_run] and
      [concrete_facts] (side conditions of the witnesses),
      and the lemmas on [drop_key] (filtering by a key) that the merger
      proofs share.
    - [PyRuntime]: what the code observes of Python. A hook is an object
      with a class (module and [__name__]) and an identity. The world holds
      a heap of sequence objects (lists, and tuples in [w_tuples]) and of
      dict objects, so that [params] and its lists are shared by reference
      with the caller; [list_append] raises [AttributeError] on a tuple. It also holds the
      [GlobalDict] singleton, an allocator and the log. [PY] is [stx] over
      this world with Python exceptions. [dict_get_default] is
      [d.get(k, [])], which builds a new list when the key is missing.
    - [Heap]: well-formedness of the heap ([wf_world] and its boolean test
      [wf_worldb]), and the preorders [lists_extend_by] and [dicts_kept],
      which are preserved by the primitives.
    - [Merger] ([Module HookMerger]): [_unique] translated line by line (the
      [dup] dict, the [result] list, the warning), the reference
      [first_by_class] and the list [dropped] of warned hooks.
      [_unique_refines] proves that the loop returns the reference and logs
      exactly the warnings for [dropped]. The other theorems: distinct class
      names, first occurrence kept, a sublist in input order, warnings plus
      kept equal the input length, length equal to the number of distinct
      names, idempotence, a [Proper] instance for class-name equivalence,
      and dropping a hook of another class with the same [__name__].
    - [EstimatorSpec]: the four categories, the TFConstants key names, the
      spec record with [getattr] ([spec_getattr]) and [_replace]
      ([spec_replace]).
    - [AppendHooks] ([Module AppendHooks]): [append_hooks] in [PY], its exact
      run [append_hooks_spec] (whose first branch is the spec's P4, the
      fast path), and the spec's P1 (same types), P2 (configured priority),
      P3 (order when no name repeats) and P5 (no other category or field
      changes). Two characterisations
      show where the spec's wording is too strong: the result is
      [incoming ++ existing] exactly when no class name repeats in it
      ([append_hooks_concat_iff]), and the attribute has distinct names
      exactly when hooks were configured or it had them already
      ([append_hooks_distinct_iff]). [append_hooks_fold] turns the four calls into the pure
      [merge_keys]; [append_hooks_fold_log] also gives their log.
      [append_hooks_loop_order] shows that the order of the categories
      changes only the order of the log records, and
      [append_hooks_idempotent] that merging again changes nothing.
    - [Engine]: the [Class] interface to TensorFlow. [Engine] gives the
      original method and [make_early_stopping_hook]. [EngineLaws] says the
      constructor only allocates a hook of a class fixed by the estimator.
      [EngineFrame] says the original method keeps the heap well formed and
      changes no existing list or dict and turns no list into a tuple.
      [toy_engine] satisfies all three
      and runs the witnesses.
    - [Wrapper]: [should_stop_fn], the polling period [run_every_secs],
      [dlrover_call_model_fn], the class
      attribute as the inductive [call_model_fn_attr] of nested closures,
      [call_model_fn] that runs it, and [hook_estimator_call_model_fn].
      The theorems in [Module WrapperFacts], proved against [Engine] and
      [EngineLaws], give a call's result on each branch: no [params], a
      falsy [params], an exception (propagated unchanged), a training list
      (every category merged after the hook is appended; when the hook is
      kept; the exact log of the call), a training tuple (the call raises
      [AttributeError] and loses the captured method's result), a missing
      training key (the hook goes to a list nobody holds),
      and a list shared by two categories (the hook leaks into the chief
      category). Further theorems cover a second call through the same
      installation (the first call's stale hook wins), two installations
      (two hooks appended per call, the outer one never kept), and
      [should_stop_fn] returning the flag last written.
    - [SpecInvariant] ([Module SpecInvariant]): the spec's no-duplicate
      invariant [spec_wf] on the [EstimatorSpec] record, decidable. It is
      preserved by [append_hooks], by one call of the closure whenever the
      captured method returns well-formed specs, and by every value of the
      class attribute ([call_model_fn_wf], by induction on the nesting).
      A merging call leaves a hook of the early-stopping class name in the
      training attribute.
    - [StopHook] ([Module StopHook]): the library hook that polls
      [should_stop_fn] ([_StopOnPredicateHook.after_run] with its
      [SecondOrStepTimer]) and the training loop it stops, as the
      environment of the code's predicate. The loop stops right after the
      first trigger when the flag is truthy and never otherwise; with the
      code's [run_every_secs] (a timer whose period is
      [Wrapper.run_every_secs]) and runs of at least a second that advance
      the global step it stops within ten runs.
    - [Process]: a step relation over (world, class attribute) for
      installation, engine call, external flag write and poll, with
      [reachable] its closure. [reachable_heap_invariant] is proved by rule
      induction: the heap stays well formed, every list of the start only
      gains early-stopping hooks at its end, and no dict changes.
      [call_model_fn_n_training_list]: after [n] calls through one
      installation the caller's training list holds exactly [n] more
      hooks, all early-stopping hooks.

    ** Bounds and fuel

    Every definition is structurally recursive: [_unique_loop] on the hook
    list, [stx_foldl] on [keys], [call_model_fn] on the nesting of closures,
    [monitored_loop] on the list of runs and [call_model_fn_n] on the
    number of calls. No fuel is needed, and the theorems state results of
    complete runs (each run equation says the call returns, or what it
    raises). Addresses are unbounded [positive]s, as Python object
    identities are. Clock readings and global steps are unbounded
    integers; the stop bound of [StopHook] is the ten runs that one second
    each needs to reach [run_every_secs=10].

    ** Not modelled

    TensorFlow itself: only the interface of [Engine] is assumed, and the
    chief's early-stopping hook is modelled in [StopHook] after the
    library's source, without its own log lines. The hook the other
    workers get ([_CheckForStoppingHook], which never calls
    [should_stop_fn]) and the session machinery (graph, stop variable,
    the [MonitoredSession] of each worker) are not modelled.
    The validation that TensorFlow's [EstimatorSpec._replace] performs
    (hooks must be [SessionRunHook]s, the mode must not change) is
    library behaviour the code relies on; [spec_replace] is total. The
    text formatting of log records and the handlers of the logger
    ([log_util], outside src/) are not modelled: a record keeps its level,
    format string and arguments. [GlobalDict] ([common_util], outside
    src/) is modelled by the two operations the code and its callers use,
    [get] with a default and item assignment. Concurrent calls are not
    modelled: the source takes no locks, and [Process] interleaves steps
    one at a time.

    ** What is left

    Calls interleaved below the granularity of one call (two threads
    between the append and the merges) are the one behaviour of the code
    left: the source takes no lock, and a model would split
    [dlrover_call_model_fn] into its statements. *)

From stdpp Require Export base list gmap strings.

(** ** Results: a value or an exception *)

Inductive res (E A : Type) : Type :=
  | Ok (a : A)
  | Exc (e : E).
Arguments Ok {E A} a.
Arguments Exc {E A} e.

(** ** A state and exception monad *)

(** A computation reads and writes a state [S] and returns a value or an
    exception. The state reached when the exception was raised is kept,
    because Python keeps the side effects performed before a [raise]. *)
Definition stx (S E A : Type) : Type := S -> S * res E A.

Section Stx.
Context {S E : Type}.

Definition stx_ret {A} (a : A) : stx S E A := fun s => (s, Ok a).

Definition stx_bind {A B} (m : stx S E A) (k : A -> stx S E B) : stx S E B :=
  fun s => match m s with
           | (s', Ok a) => k a s'
           | (s', Exc e) => (s', Exc e)
           end.

Definition stx_get : stx S E S := fun s => (s, Ok s).
Definition stx_put (s' : S) : stx S E unit := fun _ => (s', Ok tt).
Definition stx_modify (f : S -> S) : stx S E unit := fun s => (f s, Ok tt).
Definition stx_gets {A} (f : S -> A) : stx S E A := fun s => (s, Ok (f s)).
Definition stx_throw {A} (e : E) : stx S E A := fun s => (s, Exc e).

(** Iterating a step over a list, left to right, threading the value:
    the shape of a Python [for] loop that rebinds a variable. *)
Fixpoint stx_foldl {A B} (f : A -> B -> stx S E A) (a : A) (l : list B) : stx S E A :=
  match l with
  | [] => stx_ret a
  | b :: l' => stx_bind (f a b) (fun a' => stx_foldl f a' l')
  end.
End Stx.

Declare Scope stx_scope.
Delimit Scope stx_scope with stx.
Notation "'let*' x ':=' m 'in' k" := (stx_bind m (fun x => k))
  (at level 61, x binder, m at level 100, k at level 200, right associativity) : stx_scope.
Open Scope stx_scope.

(** ** Monad laws and running lemmas *)

Create HintDb wsam.
Create Rewrite HintDb wsam_rw.

Section StxLaws.
Context {S E : Type}.

Lemma stx_bind_ret_l {A B} (a : A) (k : A -> stx S E B) s :
  stx_bind (stx_ret a) k s = k a s.
Proof. reflexivity. Qed.

Lemma stx_bind_ret_r {A} (m : stx S E A) s : stx_bind m stx_ret s = m s.
Proof. unfold stx_bind, stx_ret. by destruct (m s) as [? []]. Qed.

Lemma stx_bind_assoc {A B C} (m : stx S E A) (k : A -> stx S E B)
      (k' : B -> stx S E C) s :
  stx_bind (stx_bind m k) k' s = stx_bind m (fun a => stx_bind (k a) k') s.
Proof. unfold stx_bind. by destruct (m s) as [? []]. Qed.

Lemma stx_bind_Ok {A B} (m : stx S E A) (k : A -> stx S E B) s s' a :
  m s = (s', Ok a) -> stx_bind m k s = k a s'.
Proof. intros H. unfold stx_bind. by rewrite H. Qed.

Lemma stx_bind_Exc {A B} (m : stx S E A) (k : A -> stx S E B) s s' e :
  m s = (s', Exc e) -> stx_bind m k s = (s', Exc e).
Proof. intros H. unfold stx_bind. by rewrite H. Qed.

Lemma stx_bind_gets {A B} (f : S -> A) (k : A -> stx S E B) s :
  stx_bind (stx_gets f) k s = k (f s) s.
Proof. reflexivity. Qed.

Lemma stx_bind_modify {B} (f : S -> S) (k : unit -> stx S E B) s :
  stx_bind (stx_modify f) k s = k tt (f s).
Proof. reflexivity. Qed.

End StxLaws.

(** [stx_run] unfolds the monad operations of a goal so that a run on a
    concrete or partly symbolic state computes. *)
Ltac stx_run :=
  unfold stx_foldl, stx_bind, stx_ret, stx_get, stx_put, stx_modify, stx_gets,
    stx_throw in *; simpl in *.

(** [concrete_fact] closes a side condition of a theorem at a concrete
    input: an equation that holds by computation, a fresh address, or a
    fact already established. [concrete_facts] does so for each leading
    conjunct of a goal and leaves the last one, the theorem's conclusion. *)
Ltac concrete_fact :=
  solve [reflexivity | vm_compute; reflexivity | apply not_elem_of_empty | assumption].
Ltac concrete_facts := repeat (apply conj; [concrete_fact|]).

(** ** Shared list lemmas *)

Section ListKey.
Context {A K : Type} `{EqDecision K}.

(** Dropping every element whose key is [k]. *)
Definition drop_key (key : A -> K) (k : K) (l : list A) : list A :=
  filter (fun x => key x <> k) l.

Lemma drop_key_cons key k x (l : list A) :
  drop_key key k (x :: l)
  = if decide (key x <> k) then x :: drop_key key k l else drop_key key k l.
Proof. unfold drop_key. rewrite filter_cons. reflexivity. Qed.

Lemma drop_key_app key k (l1 l2 : list A) :
  drop_key key k (l1 ++ l2) = drop_key key k l1 ++ drop_key key k l2.
Proof. apply filter_app. Qed.

Lemma elem_of_drop_key key k (l : list A) x :
  x ∈ drop_key key k l <-> key x <> k /\ x ∈ l.
Proof. unfold drop_key. by rewrite list_elem_of_filter. Qed.

Lemma key_elem_of_drop_key key k (l : list A) c :
  c ∈ map key (drop_key key k l) <-> c <> k /\ c ∈ map key l.
Proof.
  rewrite !list_elem_of_fmap. setoid_rewrite elem_of_drop_key.
  split; [intros (x & -> & Hk & Hx) | intros (Hk & x & -> & Hx)]; eauto.
Qed.

Lemma drop_key_notin key k (l : list A) :
  k ∉ map key l -> drop_key key k l = l.
Proof.
  unfold drop_key. induction l as [|x l IH]; intros Hk; [done|].
  rewrite fmap_cons, elem_of_cons in Hk.
  rewrite filter_cons_True by naive_solver. f_equal. naive_solver.
Qed.

Lemma drop_key_comm key k1 k2 (l : list A) :
  drop_key key k1 (drop_key key k2 l) = drop_key key k2 (drop_key key k1 l).
Proof. unfold drop_key. rewrite !list_filter_filter. apply list_filter_iff. tauto. Qed.

Lemma drop_key_idem key k (l : list A) :
  drop_key key k (drop_key key k l) = drop_key key k l.
Proof. unfold drop_key. rewrite list_filter_filter. apply list_filter_iff. tauto. Qed.

Lemma NoDup_map_drop_key key k (l : list A) :
  NoDup (map key l) -> NoDup (map key (drop_key key k l)).
Proof.
  intros Hl. eapply sublist_NoDup; [exact Hl|].
  apply (fmap_sublist key), sublist_filter.
Qed.

(** Filtering out the keys of [k :: seen] is dropping [k] after
    filtering out the keys of [seen]. *)
Lemma filter_notin_cons key k (seen : list K) (l : list A) :
  filter (fun x => key x ∉ k :: seen) l
  = drop_key key k (filter (fun x => key x ∉ seen) l).
Proof.
  unfold drop_key. rewrite list_filter_filter. apply list_filter_iff.
  intros x. rewrite elem_of_cons. tauto.
Qed.

Lemma filter_notin_nil key (l : list A) :
  filter (fun x => key x ∉ ([] : list K)) l = l.
Proof.
  induction l as [|x l IH]; [done|]. rewrite filter_cons_True; [by f_equal|].
  apply not_elem_of_nil.
Qed.

Lemma map_drop_key key k (l : list A) :
  map key (drop_key key k l) = filter (fun c => c <> k) (map key l).
Proof.
  induction l as [|x l IH]; [done|]. rewrite drop_key_cons, fmap_cons, filter_cons.
  case_decide; simpl; by rewrite IH.
Qed.

Lemma filter_notin_covered (key : A -> K) (l1 l2 : list A) :
  (forall k, k ∈ map key l2 -> k ∈ map key l1) ->
  filter (fun x => key x ∉ map key l1) l2 = [].
Proof.
  induction l2 as [|x l2 IH]; intros Hcov; [done|].
  rewrite fmap_cons in Hcov. rewrite filter_cons_False.
  - apply IH. intros k Hk. apply Hcov. by right.
  - intros Hx. apply Hx, Hcov. by left.
Qed.

Lemma drop_key_sublist key k (l : list A) : drop_key key k l `sublist_of` l.
Proof. apply sublist_filter. Qed.
End ListKey.

(** A filter that keeps every element is the identity. *)
Lemma filter_Forall_id {A} (P : A -> Prop) `{!forall x, Decision (P x)} (l : list A) :
  Forall P l -> filter P l = l.
Proof. induction 1 as [|x l Hx _ IH]; [done|]. by rewrite filter_cons_True, IH. Qed.

#[export] Hint Rewrite @drop_key_cons @drop_key_app @drop_key_idem : wsam_rw.
