(* ===== verification/PyRuntime.v ===== *)
(** * The Python runtime observed by [estimator_util.py]

    Hook objects and their classes; Python values stored in [GlobalDict];
    a heap of sequence objects (lists and tuples) and dict objects, so
    that a dict passed around and mutated is shared by reference as in
    Python, and [append] raises [AttributeError] on a tuple; the log written through
    [logger]; and the monad [PY] of computations over this world that may
    raise a Python exception. *)

From S2P Require Import Prelude.

(** ** Objects *)

(** Heap addresses (Python object identities). *)
Abbreviation loc := positive.

(** A class: [__module__] and [__name__]. Two distinct classes may share a
    [__name__] when they come from different modules. *)
Record pyclass := PyClass { cls_module : string; cls_name : string }.

(** A session hook: an object of some class, with its identity. The code
    never reads or writes a hook's fields, so only these two are kept. *)
Record hook := Hook { hook_class : pyclass; hook_oid : loc }.

(** [h.__class__.__name__] *)
Definition class_name (h : hook) : string := cls_name (hook_class h).

#[export] Instance pyclass_eq_dec : EqDecision pyclass.
Proof. solve_decision. Defined.
#[export] Instance hook_eq_dec : EqDecision hook.
Proof. solve_decision. Defined.
#[export] Instance pyclass_countable : Countable pyclass.
Proof.
  apply (inj_countable' (fun c => (cls_module c, cls_name c))
                        (fun p => PyClass p.1 p.2)). by intros [].
Defined.
#[export] Instance hook_countable : Countable hook.
Proof.
  apply (inj_countable' (fun h => (hook_class h, hook_oid h))
                        (fun p => Hook p.1 p.2)). by intros [].
Defined.

(** Values stored in [GlobalDict]. *)
Inductive pyval :=
  | PyNone
  | PyBool (b : bool)
  | PyInt (z : Z)
  | PyStr (s : string).

#[export] Instance pyval_eq_dec : EqDecision pyval.
Proof. solve_decision. Defined.

(** Python truthiness of a value ([bool(v)]). *)
Definition truthy (v : pyval) : bool :=
  match v with
  | PyNone => false
  | PyBool b => b
  | PyInt z => negb (Z.eqb z 0)
  | PyStr s => negb (String.eqb s "")
  end.

(** A raised exception: its class name and message. *)
Record exn := PyExc { exn_class : string; exn_msg : string }.

(** ** Logging *)

Inductive log_level := INFO | WARNING.

(** The argument of a [%s] placeholder: a string, or a list of strings
    printed with [str(list)]. *)
Inductive log_arg := ArgStr (s : string) | ArgNames (l : list string).

(** [logger.info(fmt, *args)] or [logger.warning(fmt, *args)]. *)
Record log_entry := LogRecord { log_lvl : log_level; log_fmt : string; log_args : list log_arg }.

(** ** The world *)

(** [w_lists] and [w_dicts] are the heap of sequence objects and of dict
    objects (from string keys to sequence objects). A sequence object is a
    [list] unless its address is in [w_tuples], which holds the [tuple]s:
    both are read the same way, only a list has [append]. [w_globals] is the content of the
    [GlobalDict] singleton; [w_next] is the next fresh address; [w_log] is
    the log, oldest record first. *)
Record World := mkWorld {
  w_lists : gmap loc (list hook);
  w_tuples : gset loc;
  w_dicts : gmap loc (gmap string loc);
  w_globals : gmap string pyval;
  w_next : loc;
  w_log : list log_entry
}.

Definition set_lists (f : gmap loc (list hook) -> gmap loc (list hook)) (w : World) : World :=
  mkWorld (f (w_lists w)) (w_tuples w) (w_dicts w) (w_globals w) (w_next w) (w_log w).
Definition set_tuples (f : gset loc -> gset loc) (w : World) : World :=
  mkWorld (w_lists w) (f (w_tuples w)) (w_dicts w) (w_globals w) (w_next w) (w_log w).
Definition set_dicts (f : gmap loc (gmap string loc) -> gmap loc (gmap string loc)) (w : World) : World :=
  mkWorld (w_lists w) (w_tuples w) (f (w_dicts w)) (w_globals w) (w_next w) (w_log w).
Definition set_globals (f : gmap string pyval -> gmap string pyval) (w : World) : World :=
  mkWorld (w_lists w) (w_tuples w) (w_dicts w) (f (w_globals w)) (w_next w) (w_log w).
Definition set_next (n : loc) (w : World) : World :=
  mkWorld (w_lists w) (w_tuples w) (w_dicts w) (w_globals w) n (w_log w).
Definition add_logs (es : list log_entry) (w : World) : World :=
  mkWorld (w_lists w) (w_tuples w) (w_dicts w) (w_globals w) (w_next w) (w_log w ++ es).

(** Computations of the modelled code. *)
Abbreviation PY := (stx World exn).

(** ** Primitive operations *)

Definition log (lvl : log_level) (fmt : string) (args : list log_arg) : PY unit :=
  stx_modify (add_logs [LogRecord lvl fmt args]).

(** A fresh object identity. *)
Definition alloc : PY loc :=
  fun w => (set_next (Pos.succ (w_next w)) w, Ok (w_next w)).

(** The contents of the list object at [l]. *)
Definition list_contents (l : loc) (w : World) : list hook := w_lists w !!! l.

(** The exception raised by [t.append(h)] on a tuple [t]. *)
Definition append_attribute_error : exn :=
  PyExc "AttributeError" "'tuple' object has no attribute 'append'".

(** [lst.append(h)]: the method is looked up on the object's type. *)
Definition list_append (l : loc) (h : hook) : PY unit :=
  let* is_tuple := stx_gets (fun w => bool_decide (l ∈ w_tuples w)) in
  if is_tuple then stx_throw append_attribute_error
  else stx_modify (set_lists (fun ls => <[l := ls !!! l ++ [h]]> ls)).

(** [[]]: a new empty list object. *)
Definition new_list : PY loc :=
  let* l := alloc in
  let* _ := stx_modify (fun w => set_tuples (fun ts => ts ∖ {[l]}) (set_lists (<[l := []]>) w)) in
  stx_ret l.

(** [d.get(k)]: the list object stored under [k], if any. *)
Definition dict_lookup (d : loc) (k : string) (w : World) : option loc :=
  (w_dicts w !!! d) !! k.

(** [[x for x in d.get(k, [])]]: a copy of the contents of the list stored
    under [k], or the empty list. *)
Definition dict_get_list (d : loc) (k : string) (w : World) : list hook :=
  match dict_lookup d k w with
  | Some l => list_contents l w
  | None => []
  end.

(** [d.get(k, [])]: the list object stored under [k], or a new empty list
    (which [d] does not hold). *)
Definition dict_get_default (d : loc) (k : string) : PY loc :=
  let* o := stx_gets (dict_lookup d k) in
  match o with
  | Some l => stx_ret l
  | None => new_list
  end.

(** [bool(d)] for an optional dict: [None] and [{}] are false. *)
Definition dict_truthy (od : option loc) (w : World) : bool :=
  match od with
  | None => false
  | Some d => negb (bool_decide (w_dicts w !!! d = ∅))
  end.

(** ** [GlobalDict] (common_util, outside src/) *)

(** [GlobalDict().get(k, default)] *)
Definition global_get (k : string) (dflt : pyval) : PY pyval :=
  stx_gets (fun w => default dflt (w_globals w !! k)).

(** [GlobalDict()[k] = v], as done by the code outside this file that
    requests a stop. *)
Definition global_set (k : string) (v : pyval) : PY unit :=
  stx_modify (set_globals (<[k := v]>)).

(** ** Lemmas on the world *)

Lemma add_logs_app es1 es2 w : add_logs es2 (add_logs es1 w) = add_logs (es1 ++ es2) w.
Proof. unfold add_logs; simpl. by rewrite app_assoc. Qed.

Lemma add_logs_nil w : add_logs [] w = w.
Proof. destruct w; unfold add_logs; simpl. by rewrite app_nil_r. Qed.

#[export] Hint Rewrite add_logs_app add_logs_nil : wsam_rw.

Lemma list_append_run l h w :
  l ∉ w_tuples w ->
  list_append l h w = (set_lists (fun ls => <[l := ls !!! l ++ [h]]> ls) w, Ok tt).
Proof. intros Hl. unfold list_append, stx_bind, stx_gets. by rewrite bool_decide_eq_false_2. Qed.

Lemma list_append_tuple l h w :
  l ∈ w_tuples w -> list_append l h w = (w, Exc append_attribute_error).
Proof. intros Hl. unfold list_append, stx_bind, stx_gets. by rewrite bool_decide_eq_true_2. Qed.

Lemma list_append_world l h w :
  (list_append l h w).1
  = if bool_decide (l ∈ w_tuples w) then w
    else set_lists (fun ls => <[l := ls !!! l ++ [h]]> ls) w.
Proof. unfold list_append, stx_bind, stx_gets. by case_bool_decide. Qed.

Lemma list_contents_append l h w :
  l ∉ w_tuples w -> list_contents l (list_append l h w).1 = list_contents l w ++ [h].
Proof. intros Hl. rewrite list_append_run by done. apply lookup_total_insert_eq. Qed.

Lemma list_append_dicts l h w : w_dicts (list_append l h w).1 = w_dicts w.
Proof. rewrite list_append_world. by case_bool_decide. Qed.

Lemma list_append_log l h w : w_log (list_append l h w).1 = w_log w.
Proof. rewrite list_append_world. by case_bool_decide. Qed.

Lemma list_append_tuples l h w : w_tuples (list_append l h w).1 = w_tuples w.
Proof. rewrite list_append_world. by case_bool_decide. Qed.

Lemma list_contents_add_logs l es w : list_contents l (add_logs es w) = list_contents l w.
Proof. reflexivity. Qed.

Lemma stx_bind_list_append {B} l h (k : unit -> PY B) w :
  l ∉ w_tuples w ->
  stx_bind (list_append l h) k w = k tt (set_lists (fun ls => <[l := ls !!! l ++ [h]]> ls) w).
Proof. intros Hl. unfold stx_bind at 1. by rewrite list_append_run. Qed.

Lemma dict_get_list_append d k l h w :
  l ∉ w_tuples w ->
  dict_get_list d k (list_append l h w).1
  = match dict_lookup d k w with
    | Some l' => if decide (l' = l) then list_contents l w ++ [h] else list_contents l' w
    | None => []
    end.
Proof.
  intros Ht. rewrite list_append_run by done.
  unfold dict_get_list, list_contents. simpl. unfold dict_lookup. simpl.
  destruct ((w_dicts w !!! d) !! k) as [l'|]; [|done].
  case_decide as Hl.
  - subst. apply lookup_total_insert_eq.
  - by apply lookup_total_insert_ne.
Qed.

Lemma dict_lookup_add_logs d k es w : dict_lookup d k (add_logs es w) = dict_lookup d k w.
Proof. reflexivity. Qed.

Lemma dict_get_default_found d k l w :
  dict_lookup d k w = Some l -> dict_get_default d k w = (w, Ok l).
Proof. intros H. unfold dict_get_default, stx_bind, stx_gets. by rewrite H. Qed.

Lemma dict_get_default_missing d k w :
  dict_lookup d k w = None ->
  dict_get_default d k w
  = (set_tuples (fun ts => ts ∖ {[w_next w]})
       (set_lists (<[w_next w := []]>) (set_next (Pos.succ (w_next w)) w)), Ok (w_next w)).
Proof. intros H. unfold dict_get_default, stx_bind, stx_gets. by rewrite H. Qed.
