(* ===== verification/Heap.v ===== *)
(** * Invariants of the Python heap

    [wf_world]: every allocated list or dict has an address below the
    allocator's next address, and every entry of a dict is an allocated
    list. Fresh objects then never overwrite live ones. [lists_extend_by P]
    relates two worlds when every list of the first is still there in the
    second, extended at its end by elements satisfying [P]; it is a
    preorder. The primitive operations of [PyRuntime] preserve both. *)

From S2P Require Import Prelude PyRuntime.

Definition wf_world (w : World) : Prop :=
  (forall l, l ∈ dom (w_lists w) -> (l < w_next w)%positive) /\
  (forall d, d ∈ dom (w_dicts w) -> (d < w_next w)%positive) /\
  (forall d m k l, w_dicts w !! d = Some m -> m !! k = Some l -> l ∈ dom (w_lists w)).

(** [wf_world] as a boolean test, to check it on a concrete world. *)
Definition wf_worldb (w : World) : bool :=
  forallb (fun '(l, _) => bool_decide (l < w_next w)%positive) (map_to_list (w_lists w)) &&
  forallb (fun '(d, m) =>
             bool_decide (d < w_next w)%positive &&
             forallb (fun '(_, l) => bool_decide (is_Some (w_lists w !! l))) (map_to_list m))
          (map_to_list (w_dicts w)).

Lemma wf_worldb_sound w : wf_worldb w = true -> wf_world w.
Proof.
  unfold wf_worldb. rewrite andb_true_iff, !forallb_forall. intros [Hl Hd].
  split; [|split].
  - intros l [xs Hxs]%elem_of_dom.
    specialize (Hl (l, xs)). apply bool_decide_eq_true in Hl; [done|].
    apply list_elem_of_In, elem_of_map_to_list, Hxs.
  - intros d [m Hm]%elem_of_dom.
    specialize (Hd (d, m)). rewrite andb_true_iff in Hd.
    destruct Hd as [Hd _]; [apply list_elem_of_In, elem_of_map_to_list, Hm|].
    by apply bool_decide_eq_true in Hd.
  - intros d m k l Hm Hk. specialize (Hd (d, m)). rewrite andb_true_iff, forallb_forall in Hd.
    destruct Hd as [_ Hd]; [apply list_elem_of_In, elem_of_map_to_list, Hm|].
    specialize (Hd (k, l)). apply bool_decide_eq_true in Hd; [by apply elem_of_dom|].
    apply list_elem_of_In, elem_of_map_to_list, Hk.
Qed.

(** Every list of [w] is in [w'] with only elements satisfying [P] added at
    its end. *)
Definition lists_extend_by (P : hook -> Prop) (w w' : World) : Prop :=
  forall l xs, w_lists w !! l = Some xs ->
    exists ys, w_lists w' !! l = Some (xs ++ ys) /\ Forall P ys.

(** Every dict of [w] is in [w'] unchanged. *)
Definition dicts_kept (w w' : World) : Prop :=
  forall d m, w_dicts w !! d = Some m -> w_dicts w' !! d = Some m.

Section Extend.
Context (P : hook -> Prop).

#[export] Instance lists_extend_by_preorder : PreOrder (lists_extend_by P).
Proof.
  split.
  - intros w l xs Hl. exists []. rewrite app_nil_r. split; [done|constructor].
  - intros w1 w2 w3 H12 H23 l xs Hl.
    destruct (H12 l xs Hl) as (ys & Hl2 & Hys).
    destruct (H23 l _ Hl2) as (zs & Hl3 & Hzs).
    exists (ys ++ zs). rewrite app_assoc. split; [done|]. by apply Forall_app.
Qed.

Lemma lists_extend_by_same_lists w w' :
  w_lists w' = w_lists w -> lists_extend_by P w w'.
Proof. intros Heq. unfold lists_extend_by. rewrite Heq. intros. by apply (reflexivity (R:=lists_extend_by P) w). Qed.

Lemma lists_extend_by_weaken (Q : hook -> Prop) w w' :
  (forall h, P h -> Q h) -> lists_extend_by P w w' -> lists_extend_by Q w w'.
Proof.
  intros HPQ H l xs Hl. destruct (H l xs Hl) as (ys & Hys & HF).
  exists ys. split; [done|]. eapply Forall_impl; eauto.
Qed.
End Extend.

(** Every sequence object of [w] is still a list, or still a tuple, in
    [w']: an object never changes its type. *)
Definition kinds_kept (w w' : World) : Prop :=
  forall l, l ∈ dom (w_lists w) -> (l ∈ w_tuples w' <-> l ∈ w_tuples w).

#[export] Instance dicts_kept_preorder : PreOrder dicts_kept.
Proof. split; [by intros ???|intros ??? H1 H2 d m Hd; by apply H2, H1]. Qed.

(** ** The primitives *)

Lemma wf_add_logs es w : wf_world w -> wf_world (add_logs es w).
Proof. done. Qed.

Lemma wf_set_globals f w : wf_world w -> wf_world (set_globals f w).
Proof. done. Qed.

Lemma wf_alloc w : wf_world w -> wf_world (alloc w).1.
Proof.
  intros (Hl & Hd & Hv). split; [|split]; simpl.
  - intros l Hin. specialize (Hl l Hin). lia.
  - intros d Hin. specialize (Hd d Hin). lia.
  - exact Hv.
Qed.

Lemma alloc_fresh_list w : wf_world w -> w_lists w !! w_next w = None.
Proof.
  intros (Hl & _ & _). apply not_elem_of_dom. intros Hin. specialize (Hl _ Hin). lia.
Qed.

Lemma wf_new_list w : wf_world w -> wf_world (new_list w).1.
Proof.
  intros Hwf. pose proof (wf_alloc w Hwf) as (Hl & Hd & Hv). simpl in *.
  split; [|split]; simpl.
  - intros l. rewrite dom_insert_L, elem_of_union, elem_of_singleton.
    intros [->|Hin]; [lia|]. by apply Hl.
  - exact Hd.
  - intros d m k l Hdm Hml. rewrite dom_insert_L. apply elem_of_union. right. eauto.
Qed.

Lemma new_list_extends P w : wf_world w -> lists_extend_by P w (new_list w).1.
Proof.
  intros Hwf l xs Hl. exists []. rewrite app_nil_r. split; [|constructor]. simpl.
  rewrite lookup_insert_ne; [done|]. intros <-. by rewrite alloc_fresh_list in Hl.
Qed.

Lemma wf_list_append l h w :
  wf_world w -> l ∈ dom (w_lists w) -> wf_world (list_append l h w).1.
Proof.
  intros (Hl & Hd & Hv) Hin. rewrite list_append_world. case_bool_decide; [done|].
  split; [|split]; simpl.
  - intros l'. rewrite dom_insert_L, elem_of_union, elem_of_singleton.
    intros [->|Hin']; by apply Hl.
  - exact Hd.
  - intros d m k l' Hdm Hml. rewrite dom_insert_L. apply elem_of_union. right. eauto.
Qed.

Lemma list_append_extends (P : hook -> Prop) l h w :
  P h -> lists_extend_by P w (list_append l h w).1.
Proof.
  intros Hh l' xs Hl'. rewrite list_append_world. case_bool_decide.
  { exists []. rewrite app_nil_r. split; [done|constructor]. }
  simpl. destruct (decide (l = l')) as [<-|Hne].
  - exists [h]. rewrite lookup_insert_eq, (lookup_total_correct _ _ _ Hl').
    split; [done|]. by constructor.
  - exists []. rewrite lookup_insert_ne by done. rewrite app_nil_r. split; [done|constructor].
Qed.

#[export] Hint Resolve wf_add_logs wf_set_globals wf_alloc wf_new_list : wsam.
