(* ===== verification/Merger.v ===== *)
(** * The Hook Merger: [_unique]

    [_unique] (estimator_util.py, lines 30-43) walks a list of hooks, keeps a
    hook when its [__class__.__name__] was not seen before, logs a warning
    for every other hook, and records the name in the dict [dup]. This file
    translates the loop as it is written, gives the reference
    specification [first_by_class] and the log it must produce, and proves
    that the loop implements them. The properties of the merged list
    (distinct class names, first occurrence kept, configured hooks first)
    are proved on the reference and hence hold for the loop. *)

From S2P Require Import Prelude PyRuntime.

Module HookMerger.

(** ** The code *)

(** [logger.warning("%s has existed, it won't be added", h.__class__.__name__)] *)
Definition unique_warning (h : hook) : log_entry :=
  LogRecord WARNING "%s has existed, it won't be added" [ArgStr (class_name h)].

(** The [for h in hooks] loop of [_unique], with the loop variables [dup]
    and [result]. *)
Fixpoint _unique_loop (dup : gmap string hook) (result : list hook)
    (hooks : list hook) : PY (list hook) :=
  match hooks with
  | [] => stx_ret result
  | h :: hooks' =>
      let name := class_name h in
      let* result :=
        match dup !! name with
        | None => stx_ret (result ++ [h])
        | Some _ =>
            let* _ := log WARNING "%s has existed, it won't be added"
                          [ArgStr (class_name h)] in
            stx_ret result
        end in
      _unique_loop (<[name := h]> dup) result hooks'
  end.

(** [def _unique(hooks): dup = dict(); result = []; for ...; return result] *)
Definition _unique (hooks : list hook) : PY (list hook) :=
  _unique_loop ∅ [] hooks.

(** ** The reference specification *)

(** Keep each hook whose class name did not occur earlier in the list. *)
Fixpoint first_by_class (hs : list hook) : list hook :=
  match hs with
  | [] => []
  | h :: hs' => h :: drop_key class_name (class_name h) (first_by_class hs')
  end.

(** The hooks whose class name occurs earlier in the list (or in [seen]), in
    list order: the ones [_unique] drops with a warning. *)
Fixpoint dropped_after (seen : list string) (hs : list hook) : list hook :=
  match hs with
  | [] => []
  | h :: hs' =>
      if decide (class_name h ∈ seen) then h :: dropped_after seen hs'
      else dropped_after (class_name h :: seen) hs'
  end.

Definition dropped (hs : list hook) : list hook := dropped_after [] hs.

(** Two hook lists with the same sequence of class names. *)
Definition same_classes (l1 l2 : list hook) : Prop :=
  map class_name l1 = map class_name l2.

(** ** Lemmas on the reference *)

Lemma drop_key_first_by_class c (hs : list hook) :
  drop_key class_name c (first_by_class hs) = first_by_class (drop_key class_name c hs).
Proof.
  induction hs as [|h hs IH]; [done|]. cbn [first_by_class].
  rewrite !drop_key_cons. case_decide as Hc; cbn [first_by_class].
  - by rewrite <-IH, drop_key_comm.
  - subst c. by rewrite drop_key_idem, IH.
Qed.

Lemma first_by_class_NoDup (hs : list hook) :
  NoDup (map class_name (first_by_class hs)).
Proof.
  induction hs as [|h hs IH]; simpl; [constructor|].
  constructor; [|by apply NoDup_map_drop_key].
  rewrite key_elem_of_drop_key. tauto.
Qed.

Lemma first_by_class_sublist (hs : list hook) : first_by_class hs `sublist_of` hs.
Proof.
  induction hs as [|h hs IH]; simpl; [constructor|].
  apply sublist_skip. etrans; [apply drop_key_sublist|exact IH].
Qed.

Lemma first_by_class_names (hs : list hook) c :
  c ∈ map class_name (first_by_class hs) <-> c ∈ map class_name hs.
Proof.
  induction hs as [|h hs IH]; simpl; [done|].
  rewrite !elem_of_cons, key_elem_of_drop_key, IH.
  destruct (decide (c = class_name h)); tauto.
Qed.

(** A hook is kept exactly when no hook before it has its class name. *)
Lemma elem_of_first_by_class (hs : list hook) h :
  h ∈ first_by_class hs <->
  exists pre post, hs = pre ++ h :: post /\ class_name h ∉ map class_name pre.
Proof.
  induction hs as [|h0 hs IH]; simpl.
  - split; [by intros ?%not_elem_of_nil|]. intros (pre & post & Heq & _). by destruct pre.
  - rewrite elem_of_cons, elem_of_drop_key, IH. split.
    + intros [->|(Hc & pre & post & -> & Hpre)].
      * exists [], hs. split; [done|]. apply not_elem_of_nil.
      * exists (h0 :: pre), post. split; [done|]. simpl. rewrite elem_of_cons. tauto.
    + intros ([|p pre] & post & Heq & Hpre); simplify_eq/=; [by left|].
      right. rewrite elem_of_cons in Hpre. split; [intros ?; apply Hpre; by left|].
      exists pre, post. split; [done|]. intros ?; apply Hpre; by right.
Qed.

(** A hook preceded by a different hook of its class name is not kept. *)
Lemma first_by_class_shadowed (pre post : list hook) h :
  class_name h ∈ map class_name pre -> h ∉ pre -> h ∉ first_by_class (pre ++ post).
Proof.
  intros Hname Hnot Hin. apply elem_of_first_by_class in Hin as (p & q & Heq & Hp).
  destruct (app_eq_inv _ _ _ _ Heq) as [(k & -> & Hk)|(k & -> & _)].
  - destruct k as [|x k]; simpl in Hk.
    + subst post. rewrite app_nil_r in Hname. contradiction.
    + injection Hk as -> _. apply Hnot. apply elem_of_app. right. by left.
  - apply Hp. rewrite fmap_app. apply elem_of_app. by left.
Qed.

Lemma first_by_class_app (l1 l2 : list hook) :
  first_by_class (l1 ++ l2)
  = first_by_class l1
    ++ first_by_class (filter (fun h => class_name h ∉ map class_name l1) l2).
Proof.
  induction l1 as [|h l1 IH]; simpl.
  - by rewrite (filter_notin_nil class_name).
  - rewrite IH, drop_key_app, drop_key_first_by_class. do 2 f_equal.
    by rewrite drop_key_first_by_class, (filter_notin_cons class_name).
Qed.

Lemma first_by_class_NoDup_id (hs : list hook) :
  NoDup (map class_name hs) -> first_by_class hs = hs.
Proof.
  induction hs as [|h hs IH]; simpl; [done|]. intros [Hh Hs]%NoDup_cons.
  rewrite IH by done. f_equal. by apply drop_key_notin.
Qed.

(** Merging [l] again in front of a list that already starts with the
    merge of [l] adds nothing. *)
Lemma first_by_class_absorb (l m : list hook) :
  first_by_class (l ++ first_by_class (l ++ m)) = first_by_class (l ++ m).
Proof.
  rewrite !(first_by_class_app l), filter_app.
  rewrite (filter_notin_covered class_name l (first_by_class l))
    by (intros c Hc; by apply first_by_class_names).
  rewrite (filter_Forall_id _ (first_by_class (filter _ m))).
  - rewrite app_nil_l, (first_by_class_NoDup_id (first_by_class _)) by apply first_by_class_NoDup.
    done.
  - apply Forall_forall. intros h Hh.
    pose proof (elem_of_sublist _ _ h Hh (first_by_class_sublist _)) as Hf.
    by apply list_elem_of_filter in Hf as [? _].
Qed.

(** ** The loop implements the reference *)

(** After the hooks whose names are in [seen] (the keys of [dup]), the loop
    appends the first hook of every new class to [result] and logs one
    warning per hook whose class was seen. *)
Lemma _unique_loop_spec (hs : list hook) :
  forall (dup : gmap string hook) (seen : list string) result w,
    (forall c, c ∈ seen <-> is_Some (dup !! c)) ->
    _unique_loop dup result hs w
    = (add_logs (map unique_warning (dropped_after seen hs)) w,
       Ok (result ++ first_by_class (filter (fun h => class_name h ∉ seen) hs))).
Proof.
  induction hs as [|h hs IH]; intros dup seen result w Hseen; simpl.
  - by rewrite add_logs_nil, app_nil_r.
  - rewrite filter_cons. unfold log. destruct (dup !! class_name h) as [h'|] eqn:Hd; stx_run.
    + assert (Hin : class_name h ∈ seen) by (apply Hseen; rewrite Hd; eauto).
      rewrite (decide_True (P := class_name h ∈ seen)) by done.
      rewrite (decide_False (P := class_name h ∉ seen)) by tauto.
      rewrite (IH _ seen), add_logs_app; [done|].
      intros c. rewrite Hseen, lookup_insert_is_Some.
      destruct (decide (class_name h = c)) as [<-|]; rewrite ?Hd; naive_solver.
    + assert (Hin : class_name h ∉ seen) by (rewrite Hseen, Hd; apply is_Some_None).
      rewrite (decide_False (P := class_name h ∈ seen)) by done.
      rewrite (decide_True (P := class_name h ∉ seen)) by done.
      rewrite (IH _ (class_name h :: seen)); cbn [first_by_class].
      * rewrite drop_key_first_by_class, <-(filter_notin_cons class_name).
        by rewrite <-app_assoc.
      * intros c. rewrite elem_of_cons, Hseen, lookup_insert_is_Some.
        destruct (decide (class_name h = c)); naive_solver.
Qed.

Lemma dropped_after_length (hs : list hook) : forall seen,
  length (dropped_after seen hs)
  + length (first_by_class (filter (fun h => class_name h ∉ seen) hs)) = length hs.
Proof.
  induction hs as [|h hs IH]; intros seen; [done|]. simpl. rewrite filter_cons.
  case_decide as Hin.
  - rewrite decide_False by tauto. simpl. rewrite <-(IH seen). lia.
  - rewrite decide_True by done. cbn [first_by_class length].
    rewrite drop_key_first_by_class, <-(filter_notin_cons class_name), <-(IH (class_name h :: seen)).
    lia.
Qed.

Lemma dropped_after_NoDup (hs : list hook) : forall seen,
  NoDup (map class_name hs) -> (forall c, c ∈ map class_name hs -> c ∉ seen) ->
  dropped_after seen hs = [].
Proof.
  induction hs as [|h hs IH]; intros seen Hnd Hseen; [done|]. simpl.
  rewrite fmap_cons, NoDup_cons in Hnd. destruct Hnd as [Hh Hnd].
  rewrite decide_False by (apply Hseen; simpl; rewrite elem_of_cons; by left).
  apply IH; [done|]. intros c Hc. rewrite elem_of_cons. intros [->|Hs]; [done|].
  apply (Hseen c); [|done]. simpl. rewrite elem_of_cons. by right.
Qed.

Lemma dropped_NoDup (hs : list hook) : NoDup (map class_name hs) -> dropped hs = [].
Proof. intros Hnd. apply dropped_after_NoDup; [done|]. intros c _. apply not_elem_of_nil. Qed.

Lemma map_first_by_class (hs : list hook) :
  map class_name (first_by_class hs)
  = match hs with
    | [] => []
    | h :: hs' => class_name h :: filter (fun c => c <> class_name h)
                                        (map class_name (first_by_class hs'))
    end.
Proof. destruct hs as [|h hs]; [done|]. simpl. by rewrite map_drop_key. Qed.

#[export] Instance same_classes_equiv : Equivalence same_classes.
Proof. unfold same_classes. split; [done|by intros ???|by intros ??? -> ->]. Qed.

(** The class names of the merged list depend only on the class names of
    the input: [first_by_class] is a morphism for [same_classes]. *)
#[export] Instance first_by_class_proper : Proper (same_classes ==> same_classes) first_by_class.
Proof.
  intros l1. unfold same_classes. induction l1 as [|h1 l1 IH]; intros [|h2 l2] Hl; try done.
  rewrite (map_first_by_class (h1 :: l1)), (map_first_by_class (h2 :: l2)).
  injection Hl as Hc Hl. by rewrite Hc, (IH l2 Hl).
Qed.

(** ** Properties of [_unique] *)

(** C3. [_unique] returns [first_by_class hooks] and logs one warning, in list
    order, for every hook whose class name occurred earlier. It never
    raises. *)
Theorem _unique_refines (hooks : list hook) (w : World) :
  _unique hooks w
  = (add_logs (map unique_warning (dropped hooks)) w, Ok (first_by_class hooks)).
Proof.
  unfold _unique, dropped. rewrite (_unique_loop_spec hooks ∅ []); [|intros c; rewrite lookup_empty; split; [intros ?%not_elem_of_nil; done | intros []%is_Some_None]].
  by rewrite (filter_notin_nil class_name).
Qed.

Lemma _unique_result (hooks : list hook) (w : World) :
  (_unique hooks w).2 = Ok (first_by_class hooks).
Proof. by rewrite _unique_refines. Qed.

(** The result of [_unique] has pairwise distinct class names. *)
Theorem _unique_distinct_names (hooks : list hook) (w : World) :
  exists r, (_unique hooks w).2 = Ok r /\ NoDup (map class_name r).
Proof. rewrite _unique_result. eexists; split; [done|]. apply first_by_class_NoDup. Qed.

(** C31. [_unique] keeps a hook exactly when it is the first hook of its class
    name in the input, and keeps the input order. *)
Theorem _unique_keeps_first (hooks : list hook) (w : World) :
  exists r, (_unique hooks w).2 = Ok r /\ r `sublist_of` hooks /\
    (forall h, h ∈ r <->
       exists pre post, hooks = pre ++ h :: post /\ class_name h ∉ map class_name pre).
Proof.
  rewrite _unique_result. eexists; split; [done|]. split.
  - apply first_by_class_sublist.
  - apply elem_of_first_by_class.
Qed.

(** Every hook is either kept or reported by exactly one warning. *)
Theorem _unique_warning_count (hooks : list hook) (w : World) :
  exists r, (_unique hooks w).2 = Ok r /\
    w_log (_unique hooks w).1 = w_log w ++ map unique_warning (dropped hooks) /\
    length (dropped hooks) + length r = length hooks.
Proof.
  rewrite _unique_refines. eexists; split; [done|]. split; [done|].
  pose proof (dropped_after_length hooks []) as H. rewrite (filter_notin_nil class_name) in H.
  exact H.
Qed.

(** The number of hooks kept is the number of distinct class names. *)
Theorem _unique_length (hooks : list hook) (w : World) :
  exists r, (_unique hooks w).2 = Ok r /\
    length r = size (list_to_set (map class_name hooks) : gset string).
Proof.
  rewrite _unique_result. eexists; split; [done|].
  rewrite <-(length_map class_name (first_by_class hooks)).
  rewrite <-(size_list_to_set (C := gset string)) by apply first_by_class_NoDup.
  f_equal. apply set_eq. intros c. rewrite !elem_of_list_to_set. apply first_by_class_names.
Qed.

(** Running [_unique] on its own result returns it and logs nothing. *)
Theorem _unique_idempotent (hooks : list hook) (w w' : World) :
  exists r, (_unique hooks w).2 = Ok r /\ _unique r w' = (w', Ok r).
Proof.
  rewrite _unique_result. eexists; split; [done|].
  pose proof (first_by_class_NoDup hooks) as Hnd.
  rewrite _unique_refines, (first_by_class_NoDup_id (first_by_class hooks)), dropped_NoDup by done.
  by rewrite add_logs_nil.
Qed.

(** C32. [_unique] compares [__class__.__name__], not the class: a hook whose
    class differs from an earlier hook's class but has the same [__name__]
    (a class of another module) is dropped. *)
Theorem _unique_drops_other_class_same_name (h1 h2 : hook) (rest : list hook) (w : World) :
  hook_class h1 <> hook_class h2 -> class_name h1 = class_name h2 ->
  exists r, (_unique (h1 :: rest ++ [h2]) w).2 = Ok r /\ h1 ∈ r /\ h2 ∉ r.
Proof.
  intros Hcls Hname. rewrite _unique_result. eexists; split; [done|]. split.
  - apply elem_of_first_by_class. exists [], (rest ++ [h2]). split; [done|]. apply not_elem_of_nil.
  - rewrite elem_of_first_by_class. intros ([|p pre] & post & Heq & Hpre); simplify_eq/=.
    apply Hpre, elem_of_cons. left. by rewrite Hname.
Qed.

(** Two classes named [LoggingHook] in different modules. *)
Definition logging_hook_dlrover : hook := Hook (PyClass "dlrover.trainer.tensorflow.hooks" "LoggingHook") 1.
Definition logging_hook_user : hook := Hook (PyClass "my_project.hooks" "LoggingHook") 2.

Lemma _unique_drops_other_class_same_name_witness :
  hook_class logging_hook_dlrover <> hook_class logging_hook_user /\
  class_name logging_hook_dlrover = class_name logging_hook_user /\
  exists r, (_unique (logging_hook_dlrover :: [] ++ [logging_hook_user]) (mkWorld ∅ ∅ ∅ ∅ 1 [])).2 = Ok r /\
    logging_hook_dlrover ∈ r /\ logging_hook_user ∉ r.
Proof.
  split; [discriminate|]. split; [reflexivity|].
  apply _unique_drops_other_class_same_name; [discriminate|reflexivity].
Defined.

End HookMerger.
