(* ===== verification/EstimatorSpec.v ===== *)
(** * The [EstimatorSpec] returned by [Estimator._call_model_fn]

    TensorFlow's [EstimatorSpec] is a namedtuple. The code reads one of its
    four hook attributes with [getattr(estimator_spec, key)] and builds a
    copy with [estimator_spec._replace] with the keyword argument [key=hooks]. The keys are the
    [name]s of four [TFConstants] (dlrover/trainer/constants, outside src/).
    The fields the code never reads are kept as an opaque list of named
    values, so that the theorems can say that they are left alone. *)

From S2P Require Import Prelude PyRuntime.

(** The four hook attributes of an [EstimatorSpec]. *)
Inductive category :=
  | TrainingChiefHooks
  | TrainingHooks
  | EvaluationHooks
  | PredictionHooks.

#[export] Instance category_eq_dec : EqDecision category.
Proof. solve_decision. Defined.

(** [TFConstants.Estimator*Hooks.name]: the attribute names of
    [EstimatorSpec]. *)
Definition key_name (c : category) : string :=
  match c with
  | TrainingChiefHooks => "training_chief_hooks"
  | TrainingHooks => "training_hooks"
  | EvaluationHooks => "evaluation_hooks"
  | PredictionHooks => "prediction_hooks"
  end.

(** The [keys] list of [dlrover_call_model_fn], in its order. *)
Definition keys : list category :=
  [TrainingChiefHooks; TrainingHooks; EvaluationHooks; PredictionHooks].

Inductive mode_key := TRAIN | EVAL | PREDICT.

#[export] Instance mode_key_eq_dec : EqDecision mode_key.
Proof. solve_decision. Defined.

(** A hook attribute holds [None] or a sequence of hooks. The remaining
    fields (predictions, loss, train_op, scaffold, ...) are [es_rest]. *)
Record EstimatorSpec := mkSpec {
  es_mode : mode_key;
  es_rest : list (string * pyval);
  training_chief_hooks : option (list hook);
  training_hooks : option (list hook);
  evaluation_hooks : option (list hook);
  prediction_hooks : option (list hook)
}.

(** [getattr(estimator_spec, key)] for a hook attribute. *)
Definition spec_getattr (s : EstimatorSpec) (c : category) : option (list hook) :=
  match c with
  | TrainingChiefHooks => training_chief_hooks s
  | TrainingHooks => training_hooks s
  | EvaluationHooks => evaluation_hooks s
  | PredictionHooks => prediction_hooks s
  end.

(** [estimator_spec._replace] with the keyword argument [key=hooks]: a copy with one attribute
    replaced by the Python list [hooks]. *)
Definition spec_replace (s : EstimatorSpec) (c : category) (hs : list hook) : EstimatorSpec :=
  match c with
  | TrainingChiefHooks =>
      mkSpec (es_mode s) (es_rest s) (Some hs) (training_hooks s) (evaluation_hooks s) (prediction_hooks s)
  | TrainingHooks =>
      mkSpec (es_mode s) (es_rest s) (training_chief_hooks s) (Some hs) (evaluation_hooks s) (prediction_hooks s)
  | EvaluationHooks =>
      mkSpec (es_mode s) (es_rest s) (training_chief_hooks s) (training_hooks s) (Some hs) (prediction_hooks s)
  | PredictionHooks =>
      mkSpec (es_mode s) (es_rest s) (training_chief_hooks s) (training_hooks s) (evaluation_hooks s) (Some hs)
  end.

(** Two specs agree outside the hook attribute [c]. *)
Definition agree_except (c : category) (s1 s2 : EstimatorSpec) : Prop :=
  es_mode s1 = es_mode s2 /\ es_rest s1 = es_rest s2 /\
  forall c', c' <> c -> spec_getattr s1 c' = spec_getattr s2 c'.

(** ** Lemmas *)

Lemma key_name_inj c1 c2 : key_name c1 = key_name c2 -> c1 = c2.
Proof. destruct c1, c2; simpl; congruence. Qed.

(** [keys] lists every category once. *)
Lemma keys_NoDup : NoDup keys.
Proof. unfold keys. repeat constructor; set_solver. Qed.

Lemma elem_of_keys c : c ∈ keys.
Proof. unfold keys. destruct c; set_solver. Qed.

Lemma spec_getattr_replace_eq s c hs : spec_getattr (spec_replace s c hs) c = Some hs.
Proof. by destruct c. Qed.

Lemma spec_getattr_replace_ne s c c' hs :
  c' <> c -> spec_getattr (spec_replace s c hs) c' = spec_getattr s c'.
Proof. destruct c, c'; simpl; congruence. Qed.

Lemma spec_replace_replace s c hs1 hs2 :
  spec_replace (spec_replace s c hs1) c hs2 = spec_replace s c hs2.
Proof. by destruct c. Qed.

Lemma spec_replace_getattr s c hs : spec_getattr s c = Some hs -> spec_replace s c hs = s.
Proof. destruct s, c; simpl; by intros ->. Qed.

Lemma spec_replace_rest s c hs :
  es_mode (spec_replace s c hs) = es_mode s /\ es_rest (spec_replace s c hs) = es_rest s.
Proof. by destruct c. Qed.

Lemma agree_except_refl c s : agree_except c s s.
Proof. by repeat split. Qed.

Lemma spec_replace_agree s c hs : agree_except c s (spec_replace s c hs).
Proof.
  destruct (spec_replace_rest s c hs) as [? ?]. split; [done|]. split; [done|].
  intros c' Hc'. by rewrite spec_getattr_replace_ne.
Qed.

(** Two specs with the same mode, other fields and hook attributes are
    equal. *)
Lemma spec_ext s1 s2 :
  es_mode s1 = es_mode s2 -> es_rest s1 = es_rest s2 ->
  (forall c, spec_getattr s1 c = spec_getattr s2 c) -> s1 = s2.
Proof.
  destruct s1, s2; simpl. intros -> -> H.
  pose proof (H TrainingChiefHooks). pose proof (H TrainingHooks).
  pose proof (H EvaluationHooks). pose proof (H PredictionHooks). simpl in *. by subst.
Qed.

#[export] Hint Rewrite spec_getattr_replace_eq spec_replace_replace : wsam_rw.
#[export] Hint Resolve spec_replace_agree agree_except_refl : wsam.
