(* ===== verification/AppendHooks.v ===== *)
(** * [append_hooks]: merging the configured hooks of one category

    [append_hooks(estimator_spec, key, params)] (estimator_util.py, lines
    22-53) copies the hooks configured under [key] in the dict [params].
    When there are none it returns the spec unchanged. Otherwise it puts them
    before the spec's own hooks for [key], logs the class names, removes
    later duplicates with [_unique], logs the result, and returns the spec
    with that attribute replaced. The exact run is [append_hooks_spec];
    the spec's P4 (the fast path) is its first branch, and P1, P2, P3 and
    P5 are stated on it. The loop of
    the wrapper over the four categories is [merge_keys]; its result does
    not depend on the order of the categories, and merging twice is the
    same as merging once. *)

From S2P Require Import Prelude PyRuntime Merger EstimatorSpec.
Import HookMerger.

Module AppendHooks.

(** ** The code *)

Definition append_hooks (estimator_spec : EstimatorSpec) (key : category) (params : loc)
    : PY EstimatorSpec :=
  let old := default [] (spec_getattr estimator_spec key) in
  let* hooks := stx_gets (dict_get_list params (key_name key)) in
  match hooks with
  | [] => stx_ret estimator_spec
  | _ :: _ =>
      let hooks_names := map class_name hooks in
      let hooks := hooks ++ old in
      let* _ := log INFO "Hooks before deduplication: %s = %s"
                    [ArgStr (key_name key); ArgNames hooks_names] in
      let* hooks := _unique hooks in
      let* _ := log INFO "Appending hooks after deduplication: %s = %s"
                    [ArgStr (key_name key); ArgNames (map class_name hooks)] in
      stx_ret (spec_replace estimator_spec key hooks)
  end.

(** ** Its specification *)

(** The hooks configured for [key] in the dict [params]. *)
Definition configured (params : loc) (key : category) (w : World) : list hook :=
  dict_get_list params (key_name key) w.

(** The hooks already on the spec for [key] ([getattr(...) or []]). *)
Definition existing (s : EstimatorSpec) (key : category) : list hook :=
  default [] (spec_getattr s key).

(** The log records of a merge. *)
Definition merge_log (key : category) (conf merged : list hook) (warnings : list hook)
    : list log_entry :=
  [LogRecord INFO "Hooks before deduplication: %s = %s"
     [ArgStr (key_name key); ArgNames (map class_name conf)]]
  ++ map unique_warning warnings
  ++ [LogRecord INFO "Appending hooks after deduplication: %s = %s"
        [ArgStr (key_name key); ArgNames (map class_name merged)]].

(** The result of [append_hooks] as a pure function. *)
Definition append_result (s : EstimatorSpec) (key : category) (conf : list hook) : EstimatorSpec :=
  match conf with
  | [] => s
  | _ :: _ => spec_replace s key (first_by_class (conf ++ existing s key))
  end.

(** The attribute [key] after merging [conf] into [s]. *)
Definition merged_attr (s : EstimatorSpec) (key : category) (conf : list hook) : option (list hook) :=
  match conf with
  | [] => spec_getattr s key
  | _ :: _ => Some (first_by_class (conf ++ existing s key))
  end.

(** Merging the categories [ks] in order, each with the hooks configured in
    [w] (which [append_hooks] does not change). *)
Definition merge_keys (params : loc) (ks : list category) (s : EstimatorSpec) (w : World)
    : EstimatorSpec :=
  foldl (fun s k => append_result s k (configured params k w)) s ks.

(** ** The exact run *)

(** C2. [append_hooks] never raises. With no configured hooks it changes
    nothing, not even the log. Otherwise it returns the spec whose [key]
    attribute is [first_by_class (configured ++ existing)], and it only
    appends the records of [merge_log] to the log. *)
Theorem append_hooks_spec (s : EstimatorSpec) (key : category) (params : loc) (w : World) :
  append_hooks s key params w
  = match configured params key w with
    | [] => (w, Ok s)
    | conf =>
        (add_logs (merge_log key conf (first_by_class (conf ++ existing s key))
                              (dropped (conf ++ existing s key))) w,
         Ok (append_result s key conf))
    end.
Proof.
  unfold append_hooks, configured, append_result, existing. stx_run.
  destruct (dict_get_list params (key_name key) w) as [|h conf] eqn:Hc; [done|].
  unfold log. stx_run. rewrite _unique_refines. stx_run.
  by rewrite !add_logs_app.
Qed.

Lemma existing_replace s key hs : existing (spec_replace s key hs) key = hs.
Proof. unfold existing. by rewrite spec_getattr_replace_eq. Qed.

Lemma append_hooks_result s key params w :
  (append_hooks s key params w).2 = Ok (append_result s key (configured params key w)).
Proof.
  rewrite append_hooks_spec. unfold append_result. by destruct (configured params key w).
Qed.

(** [append_hooks] leaves the heap, [GlobalDict] and the allocator alone:
    it only reads [params] and appends to the log. *)
Lemma append_hooks_world s key params w :
  exists es, (append_hooks s key params w).1 = add_logs es w.
Proof.
  rewrite append_hooks_spec. destruct (configured params key w).
  - exists []. by rewrite add_logs_nil.
  - by eexists.
Qed.

Lemma append_hooks_merged s key params w :
  configured params key w <> [] ->
  exists w', append_hooks s key params w
             = (w', Ok (spec_replace s key (first_by_class (configured params key w ++ existing s key)))).
Proof.
  intros Hne. rewrite append_hooks_spec. unfold append_result.
  destruct (configured params key w); [done|]. by eexists.
Qed.

Lemma configured_add_logs params key es w :
  configured params key (add_logs es w) = configured params key w.
Proof. reflexivity. Qed.

Lemma merged_attr_nonempty s key conf :
  conf <> [] -> merged_attr s key conf = Some (first_by_class (conf ++ existing s key)).
Proof. by destruct conf. Qed.

Lemma append_result_getattr_eq s key conf :
  spec_getattr (append_result s key conf) key = merged_attr s key conf.
Proof. destruct conf; [done|]. apply spec_getattr_replace_eq. Qed.

Lemma append_result_getattr_ne s key key' conf :
  key' <> key -> spec_getattr (append_result s key conf) key' = spec_getattr s key'.
Proof. intros Hne. destruct conf; [done|]. by apply spec_getattr_replace_ne. Qed.

Lemma append_result_rest s key conf :
  es_mode (append_result s key conf) = es_mode s /\ es_rest (append_result s key conf) = es_rest s.
Proof. destruct conf; [done|]. apply spec_replace_rest. Qed.

Lemma merge_keys_nil params s w : merge_keys params [] s w = s.
Proof. reflexivity. Qed.

Lemma merge_keys_cons params k ks s w :
  merge_keys params (k :: ks) s w = merge_keys params ks (append_result s k (configured params k w)) w.
Proof. reflexivity. Qed.

(** Running [append_hooks] over a list of categories returns [merge_keys]
    and only appends to the log. *)
Lemma append_hooks_fold params (ks : list category) :
  forall s w, exists es,
    stx_foldl (fun res key => append_hooks res key params) s ks w
    = (add_logs es w, Ok (merge_keys params ks s w)).
Proof.
  induction ks as [|k ks IH]; intros s w; simpl.
  - exists []. by rewrite add_logs_nil.
  - destruct (append_hooks_world s k params w) as [es1 Hw].
    pose proof (append_hooks_result s k params w) as Hr.
    destruct (append_hooks s k params w) as [w1 r1] eqn:Happ; simpl in Hw, Hr; subst.
    unfold stx_bind. rewrite Happ.
    destruct (IH (append_result s k (configured params k w)) (add_logs es1 w)) as [es2 ->].
    exists (es1 ++ es2). by rewrite add_logs_app.
Qed.

Lemma merge_keys_getattr params ks : forall s w c,
  NoDup ks ->
  spec_getattr (merge_keys params ks s w) c
  = if decide (c ∈ ks) then merged_attr s c (configured params c w) else spec_getattr s c.
Proof.
  induction ks as [|k ks IH]; intros s w c Hnd.
  - rewrite merge_keys_nil. case_decide as H; [by apply elem_of_nil in H|done].
  - apply NoDup_cons in Hnd as [Hk Hnd]. rewrite merge_keys_cons, IH by done.
    case_decide as Hin; case_decide as Hin'.
    + assert (c <> k) by (intros ->; done).
      unfold merged_attr, existing. by rewrite append_result_getattr_ne.
    + exfalso. apply Hin'. by right.
    + apply elem_of_cons in Hin' as [->|]; [|done]. apply append_result_getattr_eq.
    + apply append_result_getattr_ne. intros ->. apply Hin'. by left.
Qed.

Lemma merge_keys_rest params ks : forall s w,
  es_mode (merge_keys params ks s w) = es_mode s /\ es_rest (merge_keys params ks s w) = es_rest s.
Proof.
  induction ks as [|k ks IH]; intros s w; [done|]. rewrite merge_keys_cons.
  destruct (IH (append_result s k (configured params k w)) w) as [-> ->].
  apply append_result_rest.
Qed.

(** The log records of [append_hooks s key] when [conf] is configured. *)
Definition append_log (s : EstimatorSpec) (key : category) (conf : list hook) : list log_entry :=
  match conf with
  | [] => []
  | _ :: _ => merge_log key conf (first_by_class (conf ++ existing s key))
                        (dropped (conf ++ existing s key))
  end.

Lemma append_hooks_run s key params w :
  append_hooks s key params w
  = (add_logs (append_log s key (configured params key w)) w,
     Ok (append_result s key (configured params key w))).
Proof.
  rewrite append_hooks_spec. unfold append_log, append_result.
  destruct (configured params key w); [by rewrite add_logs_nil|done].
Qed.

Lemma append_log_other s k k' conf conf' :
  k' <> k -> append_log (append_result s k conf) k' conf' = append_log s k' conf'.
Proof. intros Hne. unfold append_log, existing. by rewrite append_result_getattr_ne. Qed.

(** Over distinct categories the loop logs, category after category, what
    [append_hooks] logs for that category on the spec the loop started
    from: the other categories' merges do not change it. *)
Lemma append_hooks_fold_log params (ks : list category) :
  NoDup ks -> forall s w,
  stx_foldl (fun res key => append_hooks res key params) s ks w
  = (add_logs (ks ≫= fun k => append_log s k (configured params k w)) w,
     Ok (merge_keys params ks s w)).
Proof.
  induction ks as [|k ks IH]; intros Hnd s w; simpl; [by rewrite add_logs_nil|].
  apply NoDup_cons in Hnd as [Hk Hnd]. unfold stx_bind. rewrite append_hooks_run, IH by done.
  rewrite add_logs_app. do 3 f_equal. apply Forall_bind_ext, Forall_forall.
  intros k' Hk'. apply append_log_other. by intros ->.
Qed.

Lemma merge_keys_perm params ks1 ks2 s w :
  NoDup ks1 -> ks1 ≡ₚ ks2 -> merge_keys params ks1 s w = merge_keys params ks2 s w.
Proof.
  intros Hnd Hp. assert (Hnd2 : NoDup ks2) by by rewrite <-Hp.
  destruct (merge_keys_rest params ks1 s w) as [Hm1 Hr1].
  destruct (merge_keys_rest params ks2 s w) as [Hm2 Hr2].
  apply spec_ext; [congruence|congruence|]. intros c. rewrite !merge_keys_getattr by done.
  case_decide as H1; case_decide as H2; try done; exfalso.
  - apply H2. by rewrite <-Hp.
  - apply H1. by rewrite Hp.
Qed.

Lemma append_result_idem s key conf :
  append_result (append_result s key conf) key conf = append_result s key conf.
Proof.
  destruct conf as [|h conf]; [done|]. unfold append_result.
  by rewrite existing_replace, first_by_class_absorb, spec_replace_replace.
Qed.

(** ** The spec's testable properties *)

(** C4. The merged attribute has pairwise distinct class names. *)
Theorem append_hooks_distinct_names s key params w :
  configured params key w <> [] ->
  exists w' s' hs, append_hooks s key params w = (w', Ok s') /\
    spec_getattr s' key = Some hs /\ NoDup (map class_name hs).
Proof.
  intros Hne. destruct (append_hooks_merged s key params w Hne) as [w' ->].
  do 3 eexists. split; [done|]. split; [apply spec_getattr_replace_eq|].
  apply first_by_class_NoDup.
Qed.

(** C5. P2, configured priority: a hook of the merged attribute whose class
    name is configured is the first configured hook of that name, so the
    existing hook of that name is never kept. *)
Theorem append_hooks_configured_priority s key params w :
  exists w' s', append_hooks s key params w = (w', Ok s') /\
    forall h, h ∈ existing s' key ->
      class_name h ∈ map class_name (configured params key w) ->
      exists pre post, configured params key w = pre ++ h :: post /\
                       class_name h ∉ map class_name pre.
Proof.
  rewrite append_hooks_spec. unfold append_result.
  destruct (configured params key w) as [|c0 conf] eqn:Hc.
  - do 2 eexists. split; [done|]. intros h _ Hin. by apply not_elem_of_nil in Hin.
  - eexists _, _. split; [done|]. intros h Hh Hin.
    rewrite existing_replace, first_by_class_app, elem_of_app in Hh.
    destruct Hh as [Hh|Hh].
    + by apply elem_of_first_by_class in Hh.
    + pose proof (elem_of_sublist _ _ h Hh (first_by_class_sublist _)) as Hf.
      by apply list_elem_of_filter in Hf as [? _].
Qed.

(** C6. P3, order preservation: when no class name occurs twice in the
    configured hooks followed by the existing ones, the merged attribute is
    the configured hooks followed by the existing ones. *)
Theorem append_hooks_disjoint_concat s key params w :
  configured params key w <> [] ->
  NoDup (map class_name (configured params key w ++ existing s key)) ->
  exists w', append_hooks s key params w
             = (w', Ok (spec_replace s key (configured params key w ++ existing s key))).
Proof.
  intros Hne Hnd. destruct (append_hooks_merged s key params w Hne) as [w' ->].
  rewrite first_by_class_NoDup_id by done. by eexists.
Qed.

(** C7. P1, same types: when every class name of the existing hooks is also
    configured (for instance merging a list with a copy of itself), the
    merged attribute is the configured hooks without their later
    duplicates: one hook per name, in configured order, configured
    instances only. *)
Theorem append_hooks_same_types s key params w :
  configured params key w <> [] ->
  (forall c, c ∈ map class_name (existing s key) -> c ∈ map class_name (configured params key w)) ->
  exists w', append_hooks s key params w
             = (w', Ok (spec_replace s key (first_by_class (configured params key w)))).
Proof.
  intros Hne Hcov. destruct (append_hooks_merged s key params w Hne) as [w' ->].
  rewrite first_by_class_app, (filter_notin_covered class_name) by done.
  rewrite app_nil_r. by eexists.
Qed.

(** C13. P5, no cross-category effect: [append_hooks] for [key] changes no other
    attribute and no other field of the spec, and changes the world only by
    appending to the log. *)
Theorem append_hooks_other_categories s key params w :
  exists es s', append_hooks s key params w = (add_logs es w, Ok s') /\ agree_except key s s'.
Proof.
  rewrite append_hooks_spec. unfold append_result.
  destruct (configured params key w).
  - exists [], s. rewrite add_logs_nil. split; [done|]. apply agree_except_refl.
  - do 2 eexists. split; [done|]. apply spec_replace_agree.
Qed.

(** ** Order and repetition *)

(** C12. The loop [for key in keys: model_fn_results = append_hooks(...)] run
    over the categories in any order returns the same spec and leaves the
    same heap: each merge reads only its own attribute and [params], which
    no merge changes. The log holds the same records, grouped by category
    in the order run. *)
Theorem append_hooks_loop_order params (ks : list category) s w :
  ks ≡ₚ keys ->
  exists es es',
    stx_foldl (fun res key => append_hooks res key params) s keys w
    = (add_logs es w, Ok (merge_keys params keys s w)) /\
    stx_foldl (fun res key => append_hooks res key params) s ks w
    = (add_logs es' w, Ok (merge_keys params keys s w)) /\
    es' ≡ₚ es.
Proof.
  intros Hp. assert (Hnd : NoDup ks) by (rewrite Hp; apply keys_NoDup).
  rewrite !append_hooks_fold_log by (done || apply keys_NoDup).
  rewrite (merge_keys_perm params ks keys) by done.
  do 2 eexists. split; [done|]. split; [done|]. by rewrite Hp.
Qed.

(** C30. Merging the same configured hooks again into the spec [append_hooks]
    returned gives that spec back: the second merge keeps nothing new and
    drops nothing kept. *)
Theorem append_hooks_idempotent s key params w :
  exists w1 s1 w2, append_hooks s key params w = (w1, Ok s1) /\
    append_hooks s1 key params w1 = (w2, Ok s1).
Proof.
  rewrite append_hooks_run. eexists _, _, _. split; [done|].
  by rewrite append_hooks_run, configured_add_logs, append_result_idem.
Qed.

(** ** Concrete runs *)

Definition tf_hooks_module : string := "tensorflow.python.training.basic_session_run_hooks".
Definition ckpt_a : hook := Hook (PyClass tf_hooks_module "CheckpointSaverHook") 101.
Definition ckpt_b : hook := Hook (PyClass tf_hooks_module "CheckpointSaverHook") 102.
Definition summary_c : hook := Hook (PyClass tf_hooks_module "SummarySaverHook") 103.
Definition logging_d : hook := Hook (PyClass tf_hooks_module "LoggingTensorHook") 104.
Definition logging_e : hook := Hook (PyClass tf_hooks_module "LoggingTensorHook") 105.

(** A world whose dict [params] at address 1 maps [k] to the list object at
    address 2, holding [l]. *)
Definition world_conf (k : string) (l : list hook) : World :=
  mkWorld {[2%positive := l]} ∅ {[1%positive := {[k := 2%positive]}]} ∅ 3%positive [].

Definition spec_with (key : category) (old : option (list hook)) : EstimatorSpec :=
  let base := mkSpec TRAIN [] None None None None in
  match old with Some l => spec_replace base key l | None => base end.

Lemma append_hooks_distinct_names_witness :
  configured 1 TrainingHooks (world_conf "training_hooks" [ckpt_a; logging_d; logging_e]) <> [] /\
  exists w' s' hs,
    append_hooks (spec_with TrainingHooks (Some [ckpt_b; summary_c])) TrainingHooks 1
                 (world_conf "training_hooks" [ckpt_a; logging_d; logging_e]) = (w', Ok s') /\
    spec_getattr s' TrainingHooks = Some hs /\ NoDup (map class_name hs).
Proof.
  split; [vm_compute; discriminate|].
  apply append_hooks_distinct_names. vm_compute. discriminate.
Defined.

Definition spec_sl : EstimatorSpec := spec_with TrainingHooks (Some [summary_c; logging_d]).
Definition spec_bc : EstimatorSpec := spec_with TrainingHooks (Some [ckpt_b; summary_c]).
Definition world_a : World := world_conf "training_hooks" [ckpt_a].
Definition world_ac : World := world_conf "training_hooks" [ckpt_a; summary_c].

Lemma append_hooks_disjoint_concat_witness :
  configured 1 TrainingHooks world_a <> [] /\
  NoDup (map class_name (configured 1 TrainingHooks world_a ++ existing spec_sl TrainingHooks)) /\
  exists w', append_hooks spec_sl TrainingHooks 1 world_a
             = (w', Ok (spec_replace spec_sl TrainingHooks
                          (configured 1 TrainingHooks world_a ++ existing spec_sl TrainingHooks))).
Proof.
  assert (Hnd : NoDup (map class_name (configured 1 TrainingHooks world_a ++ existing spec_sl TrainingHooks))).
  { vm_compute. repeat constructor; set_solver. }
  split; [vm_compute; discriminate|]. split; [exact Hnd|].
  apply append_hooks_disjoint_concat; [vm_compute; discriminate|exact Hnd].
Defined.

Lemma append_hooks_same_types_witness :
  configured 1 TrainingHooks world_ac <> [] /\
  (forall c, c ∈ map class_name (existing spec_bc TrainingHooks) ->
             c ∈ map class_name (configured 1 TrainingHooks world_ac)) /\
  exists w', append_hooks spec_bc TrainingHooks 1 world_ac
             = (w', Ok (spec_replace spec_bc TrainingHooks
                          (first_by_class (configured 1 TrainingHooks world_ac)))).
Proof.
  assert (Hcov : forall c, c ∈ map class_name (existing spec_bc TrainingHooks) ->
                           c ∈ map class_name (configured 1 TrainingHooks world_ac)).
  { vm_compute. intros c Hc. exact Hc. }
  split; [vm_compute; discriminate|]. split; [exact Hcov|].
  apply append_hooks_same_types; [vm_compute; discriminate|exact Hcov].
Defined.

Definition keys_reversed : list category :=
  [PredictionHooks; EvaluationHooks; TrainingHooks; TrainingChiefHooks].

Lemma append_hooks_loop_order_witness :
  keys_reversed ≡ₚ keys /\
  exists es es',
    stx_foldl (fun res key => append_hooks res key 1) spec_bc keys world_ac
    = (add_logs es world_ac, Ok (merge_keys 1 keys spec_bc world_ac)) /\
    stx_foldl (fun res key => append_hooks res key 1) spec_bc keys_reversed world_ac
    = (add_logs es' world_ac, Ok (merge_keys 1 keys spec_bc world_ac)) /\
    es' ≡ₚ es.
Proof.
  assert (Hp : keys_reversed ≡ₚ keys) by (apply (bool_decide_unpack _); vm_compute; reflexivity).
  split; [exact Hp|]. apply append_hooks_loop_order. exact Hp.
Defined.

(** The spec's scenario 3: [incoming = [CheckpointHook]] and [existing =
    [CheckpointHook; SummaryHook]] give the configured checkpoint hook
    followed by the summary hook, with one warning for the existing
    checkpoint hook. *)
Example append_hooks_scenario_3 :
  append_hooks (spec_with TrainingHooks (Some [ckpt_b; summary_c])) TrainingHooks 1
               (world_conf "training_hooks" [ckpt_a])
  = (add_logs (merge_log TrainingHooks [ckpt_a] [ckpt_a; summary_c] [ckpt_b])
              (world_conf "training_hooks" [ckpt_a]),
     Ok (spec_replace (spec_with TrainingHooks (Some [ckpt_b; summary_c])) TrainingHooks [ckpt_a; summary_c])).
Proof. vm_compute. reflexivity. Qed.

(** C33. P3 ("the result is incoming hooks followed by existing hooks")
    holds exactly when the class names of [incoming ++ existing] are
    pairwise distinct: no overlap between the two lists is not enough, two
    configured hooks of one class already collapse to one. *)
Theorem append_hooks_concat_iff s key params w :
  configured params key w <> [] ->
  exists w' s', append_hooks s key params w = (w', Ok s') /\
    (existing s' key = configured params key w ++ existing s key <->
     NoDup (map class_name (configured params key w ++ existing s key))).
Proof.
  intros Hc. destruct (append_hooks_merged s key params w Hc) as [w' Hrun].
  eexists w', _. split; [exact Hrun|]. rewrite existing_replace. split.
  - intros <-. apply first_by_class_NoDup.
  - apply first_by_class_NoDup_id.
Qed.

(** C34. The returned attribute has pairwise distinct class names exactly
    when hooks were configured for [key] or the attribute already had
    distinct names: on the fast path duplicates on the spec survive. *)
Theorem append_hooks_distinct_iff s key params w :
  exists w' s', append_hooks s key params w = (w', Ok s') /\
    (NoDup (map class_name (existing s' key)) <->
     configured params key w <> [] \/ NoDup (map class_name (existing s key))).
Proof.
  pose proof (append_hooks_result s key params w) as Hr.
  destruct (append_hooks s key params w) as [w' r]; simpl in Hr; subst r.
  eexists w', _. split; [done|]. unfold append_result.
  destruct (configured params key w) as [|h conf]; [naive_solver|].
  rewrite existing_replace. split; [by left|intros _; apply first_by_class_NoDup].
Qed.

Lemma append_hooks_concat_iff_witness :
  configured 1 TrainingHooks (world_conf "training_hooks" [logging_d; logging_e]) <> [] /\
  exists w' s', append_hooks (spec_with TrainingHooks None) TrainingHooks 1
                  (world_conf "training_hooks" [logging_d; logging_e]) = (w', Ok s') /\
    (existing s' TrainingHooks
       = configured 1 TrainingHooks (world_conf "training_hooks" [logging_d; logging_e])
         ++ existing (spec_with TrainingHooks None) TrainingHooks <->
     NoDup (map class_name (configured 1 TrainingHooks (world_conf "training_hooks" [logging_d; logging_e])
                            ++ existing (spec_with TrainingHooks None) TrainingHooks))).
Proof.
  split; [vm_compute; discriminate|].
  apply append_hooks_concat_iff. vm_compute. discriminate.
Defined.

End AppendHooks.
