(* ===== verification/Engine.v ===== *)
(** * The interface between the wrapper and TensorFlow

    The wrapper calls two things it does not define: the method
    [Estimator._call_model_fn] that it replaces, and
    [early_stopping.make_early_stopping_hook] of tensorflow_estimator.
    [Engine] states what the wrapper's theorems need from them: the types of
    an estimator and of the remaining call arguments, the original method
    as an arbitrary computation (it may raise and may change the world),
    and the hook constructor. [EngineLaws] states what the constructor
    does: it raises nothing, builds a new hook object of a class fixed by
    the estimator, and changes nothing else. [EngineFrame] states what the
    original method leaves alone; only the process-level invariants of
    [Process] use it. [toy_engine] is a concrete
    engine that satisfies the laws; the witnesses run the wrapper on it. *)

From S2P Require Import Prelude PyRuntime Heap EstimatorSpec.

Class Engine := {
  estimator : Type;
  model_fn_args : Type;
  (** [Estimator._call_model_fn(self, *args, **kwargs)] as TensorFlow
      defines it. *)
  tf_call_model_fn : estimator -> model_fn_args -> PY EstimatorSpec;
  (** [make_early_stopping_hook(estimator, should_stop_fn, run_every_secs)] *)
  make_early_stopping_hook : estimator -> PY pyval -> Z -> PY hook;
  (** The class of the hook it builds for an estimator
      ([_StopOnPredicateHook] on the chief, [_CheckForStoppingHook]
      elsewhere). *)
  early_stopping_hook_class : estimator -> pyclass
}.

Class EngineLaws (E : Engine) := {
  make_early_stopping_hook_alloc : forall est f secs w,
    make_early_stopping_hook est f secs w
    = (set_next (Pos.succ (w_next w)) w,
       Ok (Hook (early_stopping_hook_class est) (w_next w)))
}.

(** What TensorFlow's [_call_model_fn] does not do to the Python objects of
    this code: it keeps the heap well formed, changes no existing list
    (it may create new ones), changes no existing dict, and turns no list
    into a tuple. *)
Class EngineFrame (E : Engine) := {
  tf_call_model_fn_wf : forall est a w, wf_world w -> wf_world (tf_call_model_fn est a w).1;
  tf_call_model_fn_lists : forall est a w, lists_extend_by (fun _ => False) w (tf_call_model_fn est a w).1;
  tf_call_model_fn_dicts : forall est a w, dicts_kept w (tf_call_model_fn est a w).1;
  tf_call_model_fn_kinds : forall est a w, kinds_kept w (tf_call_model_fn est a w).1
}.

(** ** A concrete engine *)

Definition stop_module : string := "tensorflow_estimator.python.estimator.early_stopping".

(** An estimator is described by [config.is_chief]; the model function
    returns a training spec whose training-chief attribute holds one hook
    and whose training attribute holds a checkpoint hook. *)
Definition toy_spec : EstimatorSpec :=
  mkSpec TRAIN [("loss", PyInt 0)]
    (Some [Hook (PyClass "tensorflow.python.training.basic_session_run_hooks" "StepCounterHook") 900])
    (Some [Hook (PyClass "tensorflow.python.training.basic_session_run_hooks" "CheckpointSaverHook") 901])
    None None.

Definition toy_engine : Engine := {|
  estimator := bool;
  model_fn_args := unit;
  tf_call_model_fn := fun _ _ => stx_ret toy_spec;
  make_early_stopping_hook := fun is_chief _ _ =>
    let* oid := alloc in
    stx_ret (Hook (PyClass stop_module (if is_chief then "_StopOnPredicateHook"
                                        else "_CheckForStoppingHook")) oid);
  early_stopping_hook_class := fun is_chief =>
    PyClass stop_module (if is_chief then "_StopOnPredicateHook" else "_CheckForStoppingHook")
|}.

#[export] Instance toy_engine_laws : EngineLaws toy_engine.
Proof. split. intros est f secs w. reflexivity. Qed.

#[export] Instance toy_engine_frame : EngineFrame toy_engine.
Proof.
  split; intros est a w; simpl.
  - done.
  - apply (reflexivity (R:=lists_extend_by _)).
  - apply (reflexivity (R:=dicts_kept)).
  - done.
Qed.
