(* ===== verification/Wrapper.v ===== *)
(** * The Interception Wrapper

    [hook_estimator_call_model_fn(params)] (estimator_util.py, lines 56-92)
    reads the class attribute [Estimator._call_model_fn] and replaces it
    with the closure [dlrover_call_model_fn], which captures that previous
    value and the dict [params]. The class attribute is modelled as
    [call_model_fn_attr]: either TensorFlow's method or a dlrover closure
    around a previous attribute. Installing twice therefore nests two
    closures, as in Python. [call_model_fn] runs an attribute.

    One call of the closure builds an early-stopping hook, calls the
    captured method, and, when [params] is truthy, appends the hook to
    [params.get("training_hooks", [])] and merges the four categories with
    [append_hooks]. The theorems give the result of a call on each branch:
    no [params], an exception from the captured method, a [params] with or
    without a training-hooks list, a training-hooks tuple (the append
    raises [AttributeError]), and a [params] whose training list is
    shared with another category, and the log of a merging call. They also give [should_stop_fn] reading
    [GlobalDict] at every call. *)

From S2P Require Import Prelude PyRuntime Merger EstimatorSpec AppendHooks Engine.
Import HookMerger AppendHooks.

(** The value of [Estimator._call_model_fn]. *)
Inductive call_model_fn_attr :=
  | TFCallModelFn
  | DlroverCallModelFn (params : option loc) (estimator_call_model_fn : call_model_fn_attr).

Module Wrapper.
Section Wrapper.
Context {E : Engine}.

(** ** The code *)

(** [should_stop_fn]: reads the flag at each call. *)
Definition should_stop_fn : PY pyval :=
  let* _ := log INFO "should_stop_fn is called" [] in
  global_get "should_stop" (PyBool false).

(** The polling period passed as [run_every_secs=10] to
    [make_early_stopping_hook]. *)
Definition run_every_secs : Z := 10.

(** [dlrover_call_model_fn] called with [self] ([args[0]]) and the other arguments; the
    closure's free variables [params] and [estimator_call_model_fn] are
    its first two arguments. *)
Definition dlrover_call_model_fn (params : option loc)
    (estimator_call_model_fn : estimator -> model_fn_args -> PY EstimatorSpec)
    (self : estimator) (args : model_fn_args) : PY EstimatorSpec :=
  let* early_stopping_hook := make_early_stopping_hook self should_stop_fn run_every_secs in
  let* model_fn_results := estimator_call_model_fn self args in
  let* truthy := stx_gets (dict_truthy params) in
  match params, truthy with
  | Some d, true =>
      let* training_hooks := dict_get_default d (key_name TrainingHooks) in
      let* _ := list_append training_hooks early_stopping_hook in
      stx_foldl (fun model_fn_results key => append_hooks model_fn_results key d)
                model_fn_results keys
  | _, _ => stx_ret model_fn_results
  end.

(** Calling [Estimator._call_model_fn] with the attribute [a] installed. *)
Fixpoint call_model_fn (a : call_model_fn_attr) : estimator -> model_fn_args -> PY EstimatorSpec :=
  match a with
  | TFCallModelFn => tf_call_model_fn
  | DlroverCallModelFn params inner => dlrover_call_model_fn params (call_model_fn inner)
  end.

End Wrapper.

(** [hook_estimator_call_model_fn(params)]: the new value of the class
    attribute, a closure over its old value [a]. *)
Definition hook_estimator_call_model_fn (params : option loc) (a : call_model_fn_attr)
    : call_model_fn_attr :=
  DlroverCallModelFn params a.

End Wrapper.

Import Wrapper.

Module WrapperFacts.
Section WrapperFacts.
Context {E : Engine} {EL : EngineLaws E}.

(** The hook built by a call started in [w], and the world after it. *)
Definition stop_hook (self : estimator) (w : World) : hook :=
  Hook (early_stopping_hook_class self) (w_next w).
Definition after_alloc (w : World) : World := set_next (Pos.succ (w_next w)) w.

Lemma dlrover_call_model_fn_unfold params inner self a w :
  dlrover_call_model_fn params inner self a w
  = stx_bind (inner self a)
      (fun res => stx_bind (stx_gets (dict_truthy params))
        (fun truthy => match params, truthy with
           | Some d, true =>
               stx_bind (dict_get_default d (key_name TrainingHooks))
                 (fun l => stx_bind (list_append l (stop_hook self w))
                   (fun _ => stx_foldl (fun r key => append_hooks r key d) res keys))
           | _, _ => stx_ret res
           end)) (after_alloc w).
Proof.
  unfold dlrover_call_model_fn. unfold stx_bind at 1.
  by rewrite make_early_stopping_hook_alloc.
Qed.

(** C17. Without [params] the wrapped method returns what the captured method
    returns, run after the early-stopping hook was built; that hook is
    attached nowhere. *)
Theorem dlrover_call_model_fn_no_params inner self a w :
  dlrover_call_model_fn None inner self a w = inner self a (after_alloc w).
Proof.
  rewrite dlrover_call_model_fn_unfold. unfold stx_bind.
  by destruct (inner self a (after_alloc w)) as [w2 [res|e]].
Qed.

(** C18. When [params] is [None] or an empty dict once the captured method has
    returned, the call returns that method's result and world: nothing is
    merged, and the early-stopping hook is attached nowhere. *)
Theorem dlrover_call_model_fn_falsy_params params inner self a w w2 res :
  inner self a (after_alloc w) = (w2, Ok res) ->
  dict_truthy params w2 = false ->
  dlrover_call_model_fn params inner self a w = (w2, Ok res).
Proof.
  intros Hinner Hf. rewrite dlrover_call_model_fn_unfold.
  rewrite (stx_bind_Ok _ _ _ _ _ Hinner), stx_bind_gets, Hf.
  by destruct params.
Qed.

(** C16. An exception raised by the captured method propagates unchanged, and
    nothing is merged or appended. *)
Theorem dlrover_call_model_fn_raises params inner self a w w2 e :
  inner self a (after_alloc w) = (w2, Exc e) ->
  dlrover_call_model_fn params inner self a w = (w2, Exc e).
Proof. intros H. rewrite dlrover_call_model_fn_unfold. by apply stx_bind_Exc. Qed.

(** With a truthy [params] whose training-hooks entry is the list object
    [l], the call appends the new early-stopping hook to [l] itself (the
    caller's list) and returns the result of the captured method merged
    over the four categories, as configured after that append. *)
Lemma dlrover_call_model_fn_with_list_log d inner self a w w2 res l :
  inner self a (after_alloc w) = (w2, Ok res) ->
  dict_truthy (Some d) w2 = true ->
  dict_lookup d (key_name TrainingHooks) w2 = Some l ->
  l ∉ w_tuples w2 ->
  let w3 := (list_append l (stop_hook self w) w2).1 in
  dlrover_call_model_fn (Some d) inner self a w
  = (add_logs (keys ≫= fun k => append_log res k (configured d k w3)) w3,
     Ok (merge_keys d keys res w3)).
Proof.
  intros Hinner Htr Hl Ht w3. rewrite dlrover_call_model_fn_unfold.
  rewrite (stx_bind_Ok _ _ _ _ _ Hinner), stx_bind_gets, Htr.
  rewrite (stx_bind_Ok _ _ _ _ _ (dict_get_default_found _ _ _ _ Hl)).
  unfold w3. rewrite stx_bind_list_append, list_append_run by done.
  apply append_hooks_fold_log, keys_NoDup.
Qed.

Lemma dlrover_call_model_fn_with_list d inner self a w w2 res l :
  inner self a (after_alloc w) = (w2, Ok res) ->
  dict_truthy (Some d) w2 = true ->
  dict_lookup d (key_name TrainingHooks) w2 = Some l ->
  l ∉ w_tuples w2 ->
  exists es, dlrover_call_model_fn (Some d) inner self a w
    = (add_logs es (list_append l (stop_hook self w) w2).1,
       Ok (merge_keys d keys res (list_append l (stop_hook self w) w2).1)).
Proof.
  intros Hinner Htr Hl Ht. eexists. by apply dlrover_call_model_fn_with_list_log.
Qed.

(** C21. When the training-hooks entry of a truthy [params] is a tuple, the
    call raises [AttributeError] at [training_hooks.append], after the
    captured method returned and changed the world: nothing is merged, and
    the captured method's result is lost. *)
Theorem dlrover_call_model_fn_tuple d inner self a w w2 res l :
  inner self a (after_alloc w) = (w2, Ok res) ->
  dict_truthy (Some d) w2 = true ->
  dict_lookup d (key_name TrainingHooks) w2 = Some l ->
  l ∈ w_tuples w2 ->
  dlrover_call_model_fn (Some d) inner self a w = (w2, Exc append_attribute_error).
Proof.
  intros Hinner Htr Hl Ht. rewrite dlrover_call_model_fn_unfold.
  rewrite (stx_bind_Ok _ _ _ _ _ Hinner), stx_bind_gets, Htr.
  rewrite (stx_bind_Ok _ _ _ _ _ (dict_get_default_found _ _ _ _ Hl)).
  apply stx_bind_Exc. by apply list_append_tuple.
Qed.

Lemma dlrover_call_model_fn_new_list d inner self a w w2 res :
  inner self a (after_alloc w) = (w2, Ok res) ->
  dict_truthy (Some d) w2 = true ->
  dict_lookup d (key_name TrainingHooks) w2 = None ->
  exists es, dlrover_call_model_fn (Some d) inner self a w
    = (add_logs es (list_append (w_next w2) (stop_hook self w) (new_list w2).1).1,
       Ok (merge_keys d keys res (list_append (w_next w2) (stop_hook self w) (new_list w2).1).1)).
Proof.
  intros Hinner Htr Hl. rewrite dlrover_call_model_fn_unfold.
  rewrite (stx_bind_Ok _ _ _ _ _ Hinner), stx_bind_gets, Htr.
  rewrite (stx_bind_Ok _ _ _ _ _ (dict_get_default_missing _ _ _ Hl)).
  assert (Hfresh : w_next w2 ∉ w_tuples (new_list w2).1) by (simpl; set_solver).
  rewrite stx_bind_list_append, list_append_run by exact Hfresh.
  apply append_hooks_fold.
Qed.

(** The configured hooks of category [c] once the early-stopping hook [h]
    was appended to the training list [l]. *)
Definition configured_after (d l : loc) (h : hook) (c : category) (w : World) : list hook :=
  match dict_lookup d (key_name c) w with
  | Some l' => if decide (l' = l) then list_contents l w ++ [h] else list_contents l' w
  | None => []
  end.

(** ** Results of a call *)

(** C1. With a truthy [params] whose training-hooks entry is the list [l]:
    every category [c] of the result is the captured method's attribute
    merged with what [params] holds for [c] after the early-stopping
    hook was appended to [l]; the mode and the other fields are those of
    the captured method's result. *)
Theorem dlrover_call_model_fn_categories d inner self a w w2 res l :
  inner self a (after_alloc w) = (w2, Ok res) ->
  dict_truthy (Some d) w2 = true ->
  dict_lookup d (key_name TrainingHooks) w2 = Some l ->
  l ∉ w_tuples w2 ->
  exists w' res', dlrover_call_model_fn (Some d) inner self a w = (w', Ok res') /\
    es_mode res' = es_mode res /\ es_rest res' = es_rest res /\
    forall c, spec_getattr res' c = merged_attr res c (configured_after d l (stop_hook self w) c w2).
Proof.
  intros Hinner Htr Hl Hlt.
  destruct (dlrover_call_model_fn_with_list d inner self a w w2 res l Hinner Htr Hl Hlt) as [es ->].
  do 2 eexists. split; [done|]. destruct (merge_keys_rest d keys res (list_append l (stop_hook self w) w2).1) as [Hm Hr].
  split; [done|]. split; [done|]. intros c.
  rewrite merge_keys_getattr by apply keys_NoDup. rewrite decide_True by apply elem_of_keys.
  unfold configured. by rewrite dict_get_list_append.
Qed.

(** C15. The log of a merging call: what the captured method logged, then, for
    each category in the order of [keys], the records of [append_hooks] on
    the captured method's result with what [params] holds once the
    early-stopping hook was appended. A category with no configured hooks
    adds nothing; any other adds the configured names, one warning per
    dropped hook and the merged names. *)
Theorem dlrover_call_model_fn_log d inner self a w w2 res l :
  inner self a (after_alloc w) = (w2, Ok res) ->
  dict_truthy (Some d) w2 = true ->
  dict_lookup d (key_name TrainingHooks) w2 = Some l ->
  l ∉ w_tuples w2 ->
  exists w' res', dlrover_call_model_fn (Some d) inner self a w = (w', Ok res') /\
    w_log w' = w_log w2 ++ (keys ≫= fun k => append_log res k (configured_after d l (stop_hook self w) k w2)).
Proof.
  intros Hinner Htr Hl Hlt.
  rewrite (dlrover_call_model_fn_with_list_log d inner self a w w2 res l Hinner Htr Hl Hlt).
  do 2 eexists. split; [done|]. unfold add_logs. cbn [w_log]. rewrite list_append_log. f_equal.
  apply list_bind_ext; [|done]. intros k. unfold configured. by rewrite dict_get_list_append.
Qed.

(** C14. The caller's training list gains the new early-stopping hook, and
    the training attribute of the result is the first hook of each class
    name among that list, then the captured method's training hooks. *)
Theorem dlrover_call_model_fn_training_hooks d inner self a w w2 res l :
  inner self a (after_alloc w) = (w2, Ok res) ->
  dict_truthy (Some d) w2 = true ->
  dict_lookup d (key_name TrainingHooks) w2 = Some l ->
  l ∉ w_tuples w2 ->
  exists w' res', dlrover_call_model_fn (Some d) inner self a w = (w', Ok res') /\
    list_contents l w' = list_contents l w2 ++ [stop_hook self w] /\
    spec_getattr res' TrainingHooks
    = Some (first_by_class (list_contents l w2 ++ [stop_hook self w] ++ existing res TrainingHooks)).
Proof.
  intros Hinner Htr Hl Hlt.
  destruct (dlrover_call_model_fn_with_list d inner self a w w2 res l Hinner Htr Hl Hlt) as [es ->].
  do 2 eexists. split; [done|]. split.
  - by apply list_contents_append.
  - rewrite merge_keys_getattr by apply keys_NoDup. rewrite decide_True by apply elem_of_keys.
    unfold configured. rewrite dict_get_list_append, Hl, decide_True by done.
    rewrite merged_attr_nonempty by (by destruct (list_contents l w2)).
    by rewrite <-app_assoc.
Qed.

(** C19. The early-stopping hook is attached to the training hooks exactly
    when no hook of the caller's training list has its class name (the
    new hook itself is not in that list yet). *)
Theorem dlrover_call_model_fn_attaches_stop_hook d inner self a w w2 res l :
  inner self a (after_alloc w) = (w2, Ok res) ->
  dict_truthy (Some d) w2 = true ->
  dict_lookup d (key_name TrainingHooks) w2 = Some l ->
  l ∉ w_tuples w2 ->
  stop_hook self w ∉ list_contents l w2 ->
  exists w' res' hs, dlrover_call_model_fn (Some d) inner self a w = (w', Ok res') /\
    spec_getattr res' TrainingHooks = Some hs /\
    (stop_hook self w ∈ hs <-> class_name (stop_hook self w) ∉ map class_name (list_contents l w2)).
Proof.
  intros Hinner Htr Hl Hlt Hfresh.
  destruct (dlrover_call_model_fn_training_hooks d inner self a w w2 res l Hinner Htr Hl Hlt)
    as (w' & res' & Hrun & _ & Hattr).
  eexists w', res', _. split; [exact Hrun|]. split; [exact Hattr|]. split.
  - intros Hin Hname. by apply (first_by_class_shadowed _ _ _ Hname Hfresh) in Hin.
  - intros Hnot. apply elem_of_first_by_class.
    exists (list_contents l w2), (existing res TrainingHooks). by split.
Qed.

(** C20. When [params] is truthy but has no training-hooks entry, the
    early-stopping hook is appended to a new list that [params] does not
    hold: the training attribute is the captured method's, unchanged. *)
Theorem dlrover_call_model_fn_missing_training_key d inner self a w w2 res :
  inner self a (after_alloc w) = (w2, Ok res) ->
  dict_truthy (Some d) w2 = true ->
  dict_lookup d (key_name TrainingHooks) w2 = None ->
  exists w' res', dlrover_call_model_fn (Some d) inner self a w = (w', Ok res') /\
    spec_getattr res' TrainingHooks = spec_getattr res TrainingHooks /\
    dict_lookup d (key_name TrainingHooks) w' = None /\
    list_contents (w_next w2) w' = [stop_hook self w].
Proof.
  intros Hinner Htr Hl.
  destruct (dlrover_call_model_fn_new_list d inner self a w w2 res Hinner Htr Hl) as [es ->].
  assert (Hfresh : w_next w2 ∉ w_tuples (new_list w2).1) by (simpl; set_solver).
  rewrite list_append_run by exact Hfresh.
  do 2 eexists. split; [done|]. split; [|split].
  - rewrite merge_keys_getattr by apply keys_NoDup. rewrite decide_True by apply elem_of_keys.
    unfold configured, dict_get_list, dict_lookup in *. simpl in *. by rewrite Hl.
  - exact Hl.
  - unfold list_contents. simpl. rewrite lookup_total_insert_eq. simpl.
    by rewrite lookup_total_insert_eq.
Qed.

(** C22. When [params] holds the same list object for the training-chief hooks
    and for the training hooks, the early-stopping hook appended for
    training also reaches the training-chief attribute. *)
Theorem dlrover_call_model_fn_shared_list d inner self a w w2 res l :
  inner self a (after_alloc w) = (w2, Ok res) ->
  dict_truthy (Some d) w2 = true ->
  dict_lookup d (key_name TrainingHooks) w2 = Some l ->
  l ∉ w_tuples w2 ->
  dict_lookup d (key_name TrainingChiefHooks) w2 = Some l ->
  exists w' res', dlrover_call_model_fn (Some d) inner self a w = (w', Ok res') /\
    spec_getattr res' TrainingChiefHooks
    = Some (first_by_class (list_contents l w2 ++ [stop_hook self w]
                            ++ existing res TrainingChiefHooks)).
Proof.
  intros Hinner Htr Hl Hlt Hchief.
  destruct (dlrover_call_model_fn_categories d inner self a w w2 res l Hinner Htr Hl Hlt)
    as (w' & res' & Hrun & _ & _ & Hattr).
  exists w', res'. split; [done|]. rewrite Hattr. unfold configured_after.
  rewrite Hchief, decide_True by done.
  rewrite merged_attr_nonempty by (by destruct (list_contents l w2)).
  by rewrite <-app_assoc.
Qed.

(** ** Two calls through one installation *)

(** C24. [params] is captured once, at installation, and the first call left
    its early-stopping hook in the caller's training list. If the second
    call's estimator gets a hook of the same class, the merged training
    hooks of the second call hold the first call's hook and not the one
    built for the second call. *)
Theorem dlrover_call_model_fn_second_call d inner self1 self2 a1 a2 w w2 res l w3 res3 w4 res4 :
  inner self1 a1 (after_alloc w) = (w2, Ok res) ->
  dict_truthy (Some d) w2 = true ->
  dict_lookup d (key_name TrainingHooks) w2 = Some l ->
  l ∉ w_tuples w2 ->
  dlrover_call_model_fn (Some d) inner self1 a1 w = (w3, Ok res3) ->
  inner self2 a2 (after_alloc w3) = (w4, Ok res4) ->
  dict_truthy (Some d) w4 = true ->
  dict_lookup d (key_name TrainingHooks) w4 = Some l ->
  l ∉ w_tuples w4 ->
  list_contents l w4 = list_contents l w3 ->
  early_stopping_hook_class self2 = early_stopping_hook_class self1 ->
  class_name (stop_hook self1 w) ∉ map class_name (list_contents l w2) ->
  stop_hook self2 w3 ∉ list_contents l w4 ->
  exists w5 res5 hs, dlrover_call_model_fn (Some d) inner self2 a2 w3 = (w5, Ok res5) /\
    list_contents l w5 = list_contents l w2 ++ [stop_hook self1 w; stop_hook self2 w3] /\
    spec_getattr res5 TrainingHooks = Some hs /\
    stop_hook self1 w ∈ hs /\ stop_hook self2 w3 ∉ hs.
Proof.
  intros H1 Ht1 Hl1 Hlt1 Hrun1 H2 Ht2 Hl2 Hlt2 Hkeep Hcls Hname Hfresh.
  destruct (dlrover_call_model_fn_training_hooks d inner self1 a1 w w2 res l H1 Ht1 Hl1 Hlt1)
    as (w3' & res3' & Hrun1' & Hc1 & _).
  rewrite Hrun1 in Hrun1'. injection Hrun1' as <- <-.
  destruct (dlrover_call_model_fn_training_hooks d inner self2 a2 w3 w4 res4 l H2 Ht2 Hl2 Hlt2)
    as (w5 & res5 & Hrun2 & Hc2 & Hattr2).
  rewrite Hkeep, Hc1 in Hc2, Hattr2. rewrite Hkeep, Hc1 in Hfresh.
  eexists w5, res5, _. split; [exact Hrun2|]. split; [by rewrite Hc2, <-app_assoc|].
  split; [exact Hattr2|]. split.
  - apply elem_of_first_by_class.
    exists (list_contents l w2), ([stop_hook self2 w3] ++ existing res4 TrainingHooks).
    split; [by rewrite <-app_assoc|done].
  - apply first_by_class_shadowed; [|exact Hfresh].
    apply list_elem_of_fmap. exists (stop_hook self1 w). split.
    + unfold stop_hook, class_name. simpl. by rewrite Hcls.
    + apply elem_of_app. right. by left.
Qed.

(** ** Installing twice *)

(** C23. [hook_estimator_call_model_fn] does not check whether the attribute is
    already a dlrover closure. After two installations with the same
    [params], one call builds two early-stopping hooks: the inner closure's
    (built second) and the outer closure's. Both are appended to the
    caller's training list, and the outer one never reaches the result,
    because the inner one has the same class name and comes first. *)
Theorem call_model_fn_double_install d self a w w2 res l :
  tf_call_model_fn self a (after_alloc (after_alloc w)) = (w2, Ok res) ->
  dict_truthy (Some d) w2 = true ->
  dict_lookup d (key_name TrainingHooks) w2 = Some l ->
  l ∉ w_tuples w2 ->
  stop_hook self w ∉ list_contents l w2 ->
  exists w' res' hs,
    call_model_fn (hook_estimator_call_model_fn (Some d)
                     (hook_estimator_call_model_fn (Some d) TFCallModelFn)) self a w = (w', Ok res') /\
    list_contents l w' = list_contents l w2 ++ [stop_hook self (after_alloc w); stop_hook self w] /\
    spec_getattr res' TrainingHooks = Some hs /\ stop_hook self w ∉ hs.
Proof.
  intros Htf Htr Hl Hlt Hfresh. simpl.
  destruct (dlrover_call_model_fn_with_list d tf_call_model_fn self a (after_alloc w) w2 res l Htf Htr Hl Hlt)
    as [es Hin].
  assert (Hc1 : list_contents l (add_logs es (list_append l (stop_hook self (after_alloc w)) w2).1)
                = list_contents l w2 ++ [stop_hook self (after_alloc w)]).
  { by apply list_contents_append. }
  rewrite list_append_run in Hin by done.
  destruct (dlrover_call_model_fn_training_hooks d (dlrover_call_model_fn (Some d) tf_call_model_fn)
              self a w _ _ l Hin Htr Hl Hlt) as (w' & res' & Hrun & Hcont & Hattr).
  rewrite list_append_run in Hc1 by done.
  rewrite Hc1 in Hcont, Hattr.
  eexists w', res', _. split; [exact Hrun|]. split; [by rewrite Hcont, <-app_assoc|].
  split; [exact Hattr|]. apply first_by_class_shadowed.
  - apply list_elem_of_fmap. exists (stop_hook self (after_alloc w)). split; [done|].
    apply elem_of_app. right. by left.
  - rewrite elem_of_app, list_elem_of_singleton. intros [Hh|Hh]; [done|].
    injection Hh. unfold after_alloc. simpl. lia.
Qed.

End WrapperFacts.

(** ** Concrete runs on [toy_engine] *)

(** A [params] dict at address 1 whose entries are the sequence objects
    at addresses 2 and 3, those in [ts] being tuples. *)
Definition wrap_world_with (ts : gset loc) (entries : list (string * loc)) : World :=
  mkWorld {[2%positive := [ckpt_a]; 3%positive := [summary_c]]} ts
          {[1%positive := list_to_map entries]} ∅ 4%positive [].

Definition wrap_world (entries : list (string * loc)) : World := wrap_world_with ∅ entries.

Definition toy_tf : bool -> unit -> PY EstimatorSpec := @tf_call_model_fn toy_engine.
Definition toy_raising : bool -> unit -> PY EstimatorSpec :=
  fun _ _ => stx_throw (PyExc "ValueError" "model_fn failed").

Lemma dlrover_call_model_fn_no_params_witness :
  @dlrover_call_model_fn toy_engine None toy_tf true tt (wrap_world [])
  = toy_tf true tt (after_alloc (wrap_world [])).
Proof. apply (@dlrover_call_model_fn_no_params toy_engine _). Defined.

Lemma dlrover_call_model_fn_raises_witness :
  toy_raising true tt (after_alloc (wrap_world [("training_hooks", 2%positive)]))
  = (after_alloc (wrap_world [("training_hooks", 2%positive)]), Exc (PyExc "ValueError" "model_fn failed")) /\
  @dlrover_call_model_fn toy_engine (Some 1%positive) toy_raising true tt (wrap_world [("training_hooks", 2%positive)])
  = (after_alloc (wrap_world [("training_hooks", 2%positive)]), Exc (PyExc "ValueError" "model_fn failed")).
Proof.
  concrete_facts.
  apply (@dlrover_call_model_fn_raises toy_engine _). reflexivity.
Defined.

Lemma dlrover_call_model_fn_falsy_params_witness :
  toy_tf true tt (after_alloc (wrap_world [])) = (after_alloc (wrap_world []), Ok toy_spec) /\
  dict_truthy (Some 1%positive) (after_alloc (wrap_world [])) = false /\
  @dlrover_call_model_fn toy_engine (Some 1%positive) toy_tf true tt (wrap_world [])
  = (after_alloc (wrap_world []), Ok toy_spec).
Proof.
  concrete_facts.
  apply (@dlrover_call_model_fn_falsy_params toy_engine _); concrete_fact.
Defined.

Definition wt : list (string * loc) := [("training_hooks", 2%positive)].

Lemma dlrover_call_model_fn_categories_witness :
  toy_tf true tt (after_alloc (wrap_world wt)) = (after_alloc (wrap_world wt), Ok toy_spec) /\
  dict_truthy (Some 1%positive) (after_alloc (wrap_world wt)) = true /\
  dict_lookup 1 (key_name TrainingHooks) (after_alloc (wrap_world wt)) = Some 2%positive /\
  (2%positive ∉ w_tuples (after_alloc (wrap_world wt))) /\
  exists w' res', @dlrover_call_model_fn toy_engine (Some 1%positive) toy_tf true tt (wrap_world wt)
                  = (w', Ok res') /\
    es_mode res' = es_mode toy_spec /\ es_rest res' = es_rest toy_spec /\
    forall c, spec_getattr res' c
              = merged_attr toy_spec c
                  (configured_after 1 2 (@stop_hook toy_engine true (wrap_world wt)) c
                                    (after_alloc (wrap_world wt))).
Proof.
  concrete_facts.
  apply (@dlrover_call_model_fn_categories toy_engine _); concrete_fact.
Defined.

Lemma dlrover_call_model_fn_log_witness :
  toy_tf true tt (after_alloc (wrap_world wt)) = (after_alloc (wrap_world wt), Ok toy_spec) /\
  dict_truthy (Some 1%positive) (after_alloc (wrap_world wt)) = true /\
  dict_lookup 1 (key_name TrainingHooks) (after_alloc (wrap_world wt)) = Some 2%positive /\
  (2%positive ∉ w_tuples (after_alloc (wrap_world wt))) /\
  exists w' res', @dlrover_call_model_fn toy_engine (Some 1%positive) toy_tf true tt (wrap_world wt)
                  = (w', Ok res') /\
    w_log w' = w_log (after_alloc (wrap_world wt))
               ++ (keys ≫= fun k => append_log toy_spec k
                     (configured_after 1 2 (@stop_hook toy_engine true (wrap_world wt)) k
                                       (after_alloc (wrap_world wt)))).
Proof.
  concrete_facts.
  apply (@dlrover_call_model_fn_log toy_engine _); concrete_fact.
Defined.

Lemma dlrover_call_model_fn_training_hooks_witness :
  toy_tf true tt (after_alloc (wrap_world wt)) = (after_alloc (wrap_world wt), Ok toy_spec) /\
  dict_truthy (Some 1%positive) (after_alloc (wrap_world wt)) = true /\
  dict_lookup 1 (key_name TrainingHooks) (after_alloc (wrap_world wt)) = Some 2%positive /\
  (2%positive ∉ w_tuples (after_alloc (wrap_world wt))) /\
  exists w' res', @dlrover_call_model_fn toy_engine (Some 1%positive) toy_tf true tt (wrap_world wt)
                  = (w', Ok res') /\
    list_contents 2 w' = list_contents 2 (after_alloc (wrap_world wt))
                         ++ [@stop_hook toy_engine true (wrap_world wt)] /\
    spec_getattr res' TrainingHooks
    = Some (first_by_class (list_contents 2 (after_alloc (wrap_world wt))
                            ++ [@stop_hook toy_engine true (wrap_world wt)]
                            ++ existing toy_spec TrainingHooks)).
Proof.
  concrete_facts.
  apply (@dlrover_call_model_fn_training_hooks toy_engine _); concrete_fact.
Defined.

Lemma dlrover_call_model_fn_attaches_stop_hook_witness :
  toy_tf true tt (after_alloc (wrap_world wt)) = (after_alloc (wrap_world wt), Ok toy_spec) /\
  dict_truthy (Some 1%positive) (after_alloc (wrap_world wt)) = true /\
  dict_lookup 1 (key_name TrainingHooks) (after_alloc (wrap_world wt)) = Some 2%positive /\
  (2%positive ∉ w_tuples (after_alloc (wrap_world wt))) /\
  ((@stop_hook toy_engine true (wrap_world wt)) ∉ list_contents 2 (after_alloc (wrap_world wt))) /\
  exists w' res' hs, @dlrover_call_model_fn toy_engine (Some 1%positive) toy_tf true tt (wrap_world wt)
                     = (w', Ok res') /\
    spec_getattr res' TrainingHooks = Some hs /\
    ((@stop_hook toy_engine true (wrap_world wt)) ∈ hs <->
     class_name (@stop_hook toy_engine true (wrap_world wt))
       ∉ map class_name (list_contents 2 (after_alloc (wrap_world wt)))).
Proof.
  assert (Hfresh : (@stop_hook toy_engine true (wrap_world wt)) ∉ list_contents 2 (after_alloc (wrap_world wt))).
  { vm_compute. set_solver. }
  concrete_facts.
  apply (@dlrover_call_model_fn_attaches_stop_hook toy_engine _ 1 toy_tf true tt (wrap_world wt)
           (after_alloc (wrap_world wt)) toy_spec 2); concrete_fact.
Defined.

Definition we : list (string * loc) := [("evaluation_hooks", 3%positive)].

Lemma dlrover_call_model_fn_missing_training_key_witness :
  toy_tf true tt (after_alloc (wrap_world we)) = (after_alloc (wrap_world we), Ok toy_spec) /\
  dict_truthy (Some 1%positive) (after_alloc (wrap_world we)) = true /\
  dict_lookup 1 (key_name TrainingHooks) (after_alloc (wrap_world we)) = None /\
  exists w' res', @dlrover_call_model_fn toy_engine (Some 1%positive) toy_tf true tt (wrap_world we)
                  = (w', Ok res') /\
    spec_getattr res' TrainingHooks = spec_getattr toy_spec TrainingHooks /\
    dict_lookup 1 (key_name TrainingHooks) w' = None /\
    list_contents (w_next (after_alloc (wrap_world we))) w'
    = [@stop_hook toy_engine true (wrap_world we)].
Proof.
  concrete_facts.
  apply (@dlrover_call_model_fn_missing_training_key toy_engine _); concrete_fact.
Defined.

(** The training-hooks entry of [params] is the tuple at address 2. *)
Definition tuple_world : World := wrap_world_with {[2%positive]} wt.

Lemma dlrover_call_model_fn_tuple_witness :
  toy_tf true tt (after_alloc tuple_world) = (after_alloc tuple_world, Ok toy_spec) /\
  dict_truthy (Some 1%positive) (after_alloc tuple_world) = true /\
  dict_lookup 1 (key_name TrainingHooks) (after_alloc tuple_world) = Some 2%positive /\
  (2%positive ∈ w_tuples (after_alloc tuple_world)) /\
  @dlrover_call_model_fn toy_engine (Some 1%positive) toy_tf true tt tuple_world
  = (after_alloc tuple_world, Exc append_attribute_error).
Proof.
  assert (Ht : 2%positive ∈ w_tuples (after_alloc tuple_world)) by (simpl; set_solver).
  concrete_facts.
  apply (@dlrover_call_model_fn_tuple toy_engine _ 1 toy_tf true tt tuple_world
           (after_alloc tuple_world) toy_spec 2); concrete_fact.
Defined.

Definition wct : list (string * loc) :=
  [("training_hooks", 2%positive); ("training_chief_hooks", 2%positive)].

Lemma dlrover_call_model_fn_shared_list_witness :
  toy_tf true tt (after_alloc (wrap_world wct)) = (after_alloc (wrap_world wct), Ok toy_spec) /\
  dict_truthy (Some 1%positive) (after_alloc (wrap_world wct)) = true /\
  dict_lookup 1 (key_name TrainingHooks) (after_alloc (wrap_world wct)) = Some 2%positive /\
  (2%positive ∉ w_tuples (after_alloc (wrap_world wct))) /\
  dict_lookup 1 (key_name TrainingChiefHooks) (after_alloc (wrap_world wct)) = Some 2%positive /\
  exists w' res', @dlrover_call_model_fn toy_engine (Some 1%positive) toy_tf true tt (wrap_world wct)
                  = (w', Ok res') /\
    spec_getattr res' TrainingChiefHooks
    = Some (first_by_class (list_contents 2 (after_alloc (wrap_world wct))
                            ++ [@stop_hook toy_engine true (wrap_world wct)]
                            ++ existing toy_spec TrainingChiefHooks)).
Proof.
  concrete_facts.
  apply (@dlrover_call_model_fn_shared_list toy_engine _); concrete_fact.
Defined.

Definition run1 : World * res exn EstimatorSpec :=
  @dlrover_call_model_fn toy_engine (Some 1%positive) toy_tf true tt (wrap_world wt).
Definition world1 : World := run1.1.
Definition result1 : EstimatorSpec := match run1.2 with Ok r => r | Exc _ => toy_spec end.

Lemma dlrover_call_model_fn_second_call_witness :
  toy_tf true tt (after_alloc (wrap_world wt)) = (after_alloc (wrap_world wt), Ok toy_spec) /\
  dict_truthy (Some 1%positive) (after_alloc (wrap_world wt)) = true /\
  dict_lookup 1 (key_name TrainingHooks) (after_alloc (wrap_world wt)) = Some 2%positive /\
  (2%positive ∉ w_tuples (after_alloc (wrap_world wt))) /\
  @dlrover_call_model_fn toy_engine (Some 1%positive) toy_tf true tt (wrap_world wt) = (world1, Ok result1) /\
  toy_tf true tt (after_alloc world1) = (after_alloc world1, Ok toy_spec) /\
  dict_truthy (Some 1%positive) (after_alloc world1) = true /\
  dict_lookup 1 (key_name TrainingHooks) (after_alloc world1) = Some 2%positive /\
  (2%positive ∉ w_tuples (after_alloc world1)) /\
  list_contents 2 (after_alloc world1) = list_contents 2 world1 /\
  @early_stopping_hook_class toy_engine true = @early_stopping_hook_class toy_engine true /\
  (class_name (@stop_hook toy_engine true (wrap_world wt))
    ∉ map class_name (list_contents 2 (after_alloc (wrap_world wt)))) /\
  ((@stop_hook toy_engine true world1) ∉ list_contents 2 (after_alloc world1)) /\
  exists w5 res5 hs,
    @dlrover_call_model_fn toy_engine (Some 1%positive) toy_tf true tt world1 = (w5, Ok res5) /\
    list_contents 2 w5 = list_contents 2 (after_alloc (wrap_world wt))
                         ++ [@stop_hook toy_engine true (wrap_world wt); @stop_hook toy_engine true world1] /\
    spec_getattr res5 TrainingHooks = Some hs /\
    (@stop_hook toy_engine true (wrap_world wt)) ∈ hs /\ (@stop_hook toy_engine true world1) ∉ hs.
Proof.
  assert (H4 : @dlrover_call_model_fn toy_engine (Some 1%positive) toy_tf true tt (wrap_world wt)
               = (world1, Ok result1)) by (vm_compute; reflexivity).
  assert (Hname : class_name (@stop_hook toy_engine true (wrap_world wt))
                    ∉ map class_name (list_contents 2 (after_alloc (wrap_world wt))))
    by (vm_compute; set_solver).
  assert (Hfresh : (@stop_hook toy_engine true world1) ∉ list_contents 2 (after_alloc world1))
    by (vm_compute; set_solver).
  concrete_facts.
  apply (@dlrover_call_model_fn_second_call toy_engine _ 1 toy_tf true true tt tt (wrap_world wt)
           (after_alloc (wrap_world wt)) toy_spec 2 world1 result1 (after_alloc world1) toy_spec); concrete_fact.
Defined.

Lemma call_model_fn_double_install_witness :
  @tf_call_model_fn toy_engine true tt (after_alloc (after_alloc (wrap_world wt)))
  = (after_alloc (after_alloc (wrap_world wt)), Ok toy_spec) /\
  dict_truthy (Some 1%positive) (after_alloc (after_alloc (wrap_world wt))) = true /\
  dict_lookup 1 (key_name TrainingHooks) (after_alloc (after_alloc (wrap_world wt))) = Some 2%positive /\
  (2%positive ∉ w_tuples (after_alloc (after_alloc (wrap_world wt)))) /\
  ((@stop_hook toy_engine true (wrap_world wt))
     ∉ list_contents 2 (after_alloc (after_alloc (wrap_world wt)))) /\
  exists w' res' hs,
    @call_model_fn toy_engine (hook_estimator_call_model_fn (Some 1%positive)
                     (hook_estimator_call_model_fn (Some 1%positive) TFCallModelFn)) true tt (wrap_world wt)
    = (w', Ok res') /\
    list_contents 2 w' = list_contents 2 (after_alloc (after_alloc (wrap_world wt)))
                         ++ [@stop_hook toy_engine true (after_alloc (wrap_world wt));
                             @stop_hook toy_engine true (wrap_world wt)] /\
    spec_getattr res' TrainingHooks = Some hs /\ (@stop_hook toy_engine true (wrap_world wt)) ∉ hs.
Proof.
  assert (Hfresh : (@stop_hook toy_engine true (wrap_world wt))
                     ∉ list_contents 2 (after_alloc (after_alloc (wrap_world wt)))).
  { vm_compute. set_solver. }
  concrete_facts.
  apply (@call_model_fn_double_install toy_engine _ 1 true tt (wrap_world wt)
           (after_alloc (after_alloc (wrap_world wt))) toy_spec 2); concrete_fact.
Defined.

(** The chief attribute of that run holds the early-stopping hook. *)
Example dlrover_call_model_fn_shared_list_run :
  exists w' res', @dlrover_call_model_fn toy_engine (Some 1%positive) toy_tf true tt (wrap_world wct)
                  = (w', Ok res') /\
    exists hs, spec_getattr res' TrainingChiefHooks = Some hs /\
               (@stop_hook toy_engine true (wrap_world wct)) ∈ hs.
Proof.
  do 2 eexists. split; [vm_compute; reflexivity|]. eexists. split; [reflexivity|].
  vm_compute. set_solver.
Qed.

(** [should_stop_fn] logs its call and returns the current value of
    ["should_stop"] in [GlobalDict], [False] when it is absent. *)
Lemma should_stop_fn_reads_flag (w : World) :
  should_stop_fn w
  = (add_logs [LogRecord INFO "should_stop_fn is called" []] w,
     Ok (default (PyBool false) (w_globals w !! "should_stop"))).
Proof. reflexivity. Qed.

(** C25. The spec's scenario 4: after the flag is set to [v], the next call of
    [should_stop_fn] returns [v], whatever it returned before. *)
Theorem should_stop_fn_after_set (v : pyval) (w : World) :
  exists w', (let* _ := global_set "should_stop" v in should_stop_fn) w = (w', Ok v).
Proof.
  eexists. unfold global_set. rewrite stx_bind_modify, should_stop_fn_reads_flag.
  simpl. by rewrite lookup_insert_eq.
Qed.

End WrapperFacts.
