(* ===== verification/SpecInvariant.v ===== *)
(** * The no-duplicate invariant of an [EstimatorSpec]

    The spec's data model says that within one category no two hooks share
    a type. [spec_wf] states it on the record: every hook attribute that is
    a list has pairwise distinct class names; [None] is allowed. It is
    decidable ([spec_wf_dec]), so a concrete spec is checked by [decide].

    The code does not establish the invariant on its own: the fast path of
    [append_hooks] returns the attribute it was given. It preserves it:
    [append_hooks] maps a well-formed spec to a well-formed spec, so does
    one call of [dlrover_call_model_fn] whenever the captured method
    returns well-formed specs, and so does every value of the class
    attribute, however many times it was installed, when TensorFlow's own
    method does. A merging call also always leaves a hook of the
    early-stopping class in the training attribute. *)

From S2P Require Import Prelude PyRuntime Merger EstimatorSpec AppendHooks Engine Wrapper.
Import HookMerger AppendHooks Wrapper WrapperFacts.

Module SpecInvariant.

(** ** The invariant *)

Definition spec_wf (s : EstimatorSpec) : Prop :=
  forall c hs, spec_getattr s c = Some hs -> NoDup (map class_name hs).

(** The same condition, category by category. *)
Definition attr_wf (o : option (list hook)) : Prop :=
  match o with Some hs => NoDup (map class_name hs) | None => True end.

#[export] Instance attr_wf_dec o : Decision (attr_wf o).
Proof. destruct o; simpl; apply _. Defined.

Lemma spec_wf_keys s : spec_wf s <-> Forall (fun c => attr_wf (spec_getattr s c)) keys.
Proof.
  rewrite Forall_forall. split.
  - intros H c _. destruct (spec_getattr s c) eqn:Hc; simpl; [by eapply H|done].
  - intros H c hs Hc. specialize (H c (elem_of_keys c)). by rewrite Hc in H.
Qed.

#[export] Instance spec_wf_dec s : Decision (spec_wf s).
Proof. refine (cast_if (decide (Forall (fun c => attr_wf (spec_getattr s c)) keys))); by rewrite spec_wf_keys. Defined.

(** ** Lemmas *)

Lemma spec_wf_replace s c hs :
  spec_wf s -> NoDup (map class_name hs) -> spec_wf (spec_replace s c hs).
Proof.
  intros Hs Hhs c' hs' Hc'. destruct (decide (c' = c)) as [->|Hne].
  - rewrite spec_getattr_replace_eq in Hc'. by injection Hc' as <-.
  - rewrite spec_getattr_replace_ne in Hc' by done. by eapply Hs.
Qed.

Lemma spec_wf_append_result s key conf : spec_wf s -> spec_wf (append_result s key conf).
Proof.
  intros Hs. destruct conf as [|h conf]; [done|].
  apply spec_wf_replace; [done|apply first_by_class_NoDup].
Qed.

Lemma spec_wf_merge_keys params ks : forall s w, spec_wf s -> spec_wf (merge_keys params ks s w).
Proof.
  induction ks as [|k ks IH]; intros s w Hs; [done|].
  rewrite merge_keys_cons. by apply IH, spec_wf_append_result.
Qed.

#[export] Hint Resolve spec_wf_replace spec_wf_append_result spec_wf_merge_keys : wsam.

(** ** Preservation *)

(** C29. [append_hooks] returns a well-formed spec when it is given one. *)
Theorem append_hooks_preserves_wf s key params w :
  spec_wf s -> exists w' s', append_hooks s key params w = (w', Ok s') /\ spec_wf s'.
Proof.
  intros Hs. pose proof (append_hooks_result s key params w) as Hr.
  destruct (append_hooks s key params w) as [w' r]; simpl in Hr; subst r.
  eexists w', _. split; [done|]. by apply spec_wf_append_result.
Qed.

Section Call.
Context {E : Engine} {EL : EngineLaws E}.

Lemma dlrover_call_model_fn_result params inner self a w w' r :
  dlrover_call_model_fn params inner self a w = (w', Ok r) ->
  exists w2 res, inner self a (after_alloc w) = (w2, Ok res) /\
    (r = res \/ exists d w3, params = Some d /\ r = merge_keys d keys res w3).
Proof.
  rewrite dlrover_call_model_fn_unfold.
  destruct (inner self a (after_alloc w)) as [w2 [res|e]] eqn:Hc; unfold stx_bind at 1; rewrite Hc;
    [|discriminate].
  intros Hrun. exists w2, res. split; [done|].
  rewrite stx_bind_gets in Hrun.
  destruct params as [d|]; [destruct (dict_truthy (Some d) w2)|];
    try (injection Hrun as _ <-; by left).
  right. unfold stx_bind at 1 in Hrun.
  destruct (dict_get_default d (key_name TrainingHooks) w2) as [w3 [l|e]]; [|discriminate].
  unfold stx_bind at 1 in Hrun.
  destruct (list_append l (stop_hook self w) w3) as [w4 [[]|e]]; [|discriminate].
  destruct (append_hooks_fold d keys res w4) as [es Hf]. rewrite Hf in Hrun. injection Hrun as _ <-. by eexists _, _.
Qed.

(** A method of the engine's type that returns only well-formed specs
    (it may raise). *)
Definition method_returns_wf (f : estimator -> model_fn_args -> PY EstimatorSpec) : Prop :=
  forall self a w w' r, f self a w = (w', Ok r) -> spec_wf r.

(** C28. One call of the closure returns a well-formed spec whenever the
    captured method does, on every branch: no [params], a falsy [params],
    and a merge, with or without a training-hooks entry. *)
Theorem dlrover_call_model_fn_preserves_wf params inner :
  method_returns_wf inner -> method_returns_wf (dlrover_call_model_fn params inner).
Proof.
  intros Hin self a w w' r Hrun.
  destruct (dlrover_call_model_fn_result _ _ _ _ _ _ _ Hrun) as (w2 & res & Hc & [->|(d & w3 & _ & ->)]).
  - by eapply Hin.
  - apply spec_wf_merge_keys. by eapply Hin.
Qed.

(** C8. Every value of the class attribute, after any number of
    installations, returns well-formed specs when TensorFlow's own
    [_call_model_fn] does. *)
Theorem call_model_fn_wf (attr : call_model_fn_attr) :
  method_returns_wf tf_call_model_fn -> method_returns_wf (call_model_fn attr).
Proof.
  intros Htf. induction attr as [|params inner IH]; simpl; [done|].
  by apply dlrover_call_model_fn_preserves_wf.
Qed.

(** C11. After a merging call whose [params] holds a training-hooks list, the
    training attribute of the result holds a hook with the class name of
    the early-stopping hook: the one built by this call, or an earlier hook
    of that name (the name, not the class, is what deduplication keeps). *)
Theorem dlrover_call_model_fn_stop_name_attached d inner self a w w2 res l :
  inner self a (after_alloc w) = (w2, Ok res) ->
  dict_truthy (Some d) w2 = true ->
  dict_lookup d (key_name TrainingHooks) w2 = Some l ->
  l ∉ w_tuples w2 ->
  exists w' res' hs, dlrover_call_model_fn (Some d) inner self a w = (w', Ok res') /\
    spec_getattr res' TrainingHooks = Some hs /\
    exists h, h ∈ hs /\ class_name h = class_name (stop_hook self w).
Proof.
  intros Hinner Htr Hl Hlt.
  destruct (dlrover_call_model_fn_training_hooks d inner self a w w2 res l Hinner Htr Hl Hlt)
    as (w' & res' & Hrun & _ & Hattr).
  eexists w', res', _. split; [exact Hrun|]. split; [exact Hattr|].
  assert (Hn : class_name (stop_hook self w)
               ∈ map class_name (first_by_class (list_contents l w2 ++ [stop_hook self w]
                                                 ++ existing res TrainingHooks))).
  { apply first_by_class_names, list_elem_of_fmap. exists (stop_hook self w).
    split; [done|]. rewrite !elem_of_app. right. left. by left. }
  apply list_elem_of_fmap in Hn as (h & Heq & Hh). by exists h.
Qed.

End Call.

(** ** Concrete runs on [toy_engine] *)

Lemma append_hooks_preserves_wf_witness :
  spec_wf spec_bc /\
  exists w' s', append_hooks spec_bc TrainingHooks 1 world_ac = (w', Ok s') /\ spec_wf s'.
Proof.
  assert (Hwf : spec_wf spec_bc) by (apply (bool_decide_unpack _); vm_compute; reflexivity).
  concrete_facts.
  apply append_hooks_preserves_wf. exact Hwf.
Defined.

Lemma toy_tf_returns_wf : @method_returns_wf toy_engine toy_tf.
Proof.
  intros self a w w' r H. injection H as _ <-.
  apply (bool_decide_unpack _). vm_compute. reflexivity.
Qed.

Lemma dlrover_call_model_fn_preserves_wf_witness :
  @method_returns_wf toy_engine toy_tf /\
  @method_returns_wf toy_engine (@dlrover_call_model_fn toy_engine (Some 1%positive) toy_tf).
Proof.
  split; [exact toy_tf_returns_wf|].
  apply (@dlrover_call_model_fn_preserves_wf toy_engine _). exact toy_tf_returns_wf.
Defined.

Lemma call_model_fn_wf_witness :
  @method_returns_wf toy_engine (@tf_call_model_fn toy_engine) /\
  @method_returns_wf toy_engine (@call_model_fn toy_engine
    (hook_estimator_call_model_fn (Some 1%positive)
      (hook_estimator_call_model_fn (Some 1%positive) TFCallModelFn))).
Proof.
  split; [exact toy_tf_returns_wf|].
  apply (@call_model_fn_wf toy_engine _). exact toy_tf_returns_wf.
Defined.

Lemma dlrover_call_model_fn_stop_name_attached_witness :
  toy_tf true tt (after_alloc (wrap_world wt)) = (after_alloc (wrap_world wt), Ok toy_spec) /\
  dict_truthy (Some 1%positive) (after_alloc (wrap_world wt)) = true /\
  dict_lookup 1 (key_name TrainingHooks) (after_alloc (wrap_world wt)) = Some 2%positive /\
  (2%positive ∉ w_tuples (after_alloc (wrap_world wt))) /\
  exists w' res' hs, @dlrover_call_model_fn toy_engine (Some 1%positive) toy_tf true tt (wrap_world wt)
                     = (w', Ok res') /\
    spec_getattr res' TrainingHooks = Some hs /\
    exists h, h ∈ hs /\ class_name h = class_name (@stop_hook toy_engine true (wrap_world wt)).
Proof.
  concrete_facts.
  apply (@dlrover_call_model_fn_stop_name_attached toy_engine _ 1 toy_tf true tt (wrap_world wt)
           (after_alloc (wrap_world wt)) toy_spec 2); concrete_fact.
Defined.

End SpecInvariant.
