(* ===== verification/StopHook.v ===== *)
(** * The hook that polls [should_stop_fn]

    [dlrover_call_model_fn] builds its early-stopping hook with
    [make_early_stopping_hook(self, should_stop_fn, run_every_secs=10)]
    (estimator_util.py, lines 71-73). On the chief, tensorflow_estimator
    returns a [_StopOnPredicateHook]: after every session run it asks its
    [SecondOrStepTimer] whether to trigger for the current global step,
    and when it triggers it records the step and the time and calls
    [should_stop_fn]; a true result requests the stop of the training
    loop. This is library code, modelled here as the environment in which
    the code's predicate runs, after the library's source:

    - [SecondOrStepTimer] with [every_secs] set and [every_steps = None]:
      the last trigger is one optional pair (step, time), since the library
      sets both together; [should_trigger_for_step] triggers on the first
      call, never twice for one global step, and otherwise once [every_secs]
      have passed since the last trigger;
    - [after_run] of [_StopOnPredicateHook], which returns the new timer
      and whether it requested a stop (the library's own log line and the
      assignment of its stop variable are left out);
    - [monitored_loop]: the training loop [while not should_stop(): run],
      given the global step and the clock reading of each run.

    The timer's [every_secs] is the [run_every_secs] the code passes
    ([Wrapper.run_every_secs]); the other workers' [_CheckForStoppingHook]
    is not modelled.

    Clock readings are integers (seconds). The clock is read once per
    [after_run]; the library reads it twice, in [should_trigger_for_step]
    and in [update_last_triggered_step], with no step in between. *)

From S2P Require Import Prelude PyRuntime Wrapper.
Import Wrapper.

Module StopHook.

Record SecondOrStepTimer := Timer {
  every_secs : Z;
  last_triggered : option (Z * Z)
}.

(** [SecondOrStepTimer.should_trigger_for_step(step)] at clock reading [now]. *)
Definition should_trigger_for_step (t : SecondOrStepTimer) (step now : Z) : bool :=
  match last_triggered t with
  | None => true
  | Some (last_step, last_time) =>
      if decide (last_step = step) then false
      else bool_decide (last_time + every_secs t <= now)%Z
  end.

(** [SecondOrStepTimer.update_last_triggered_step(step)] *)
Definition update_last_triggered_step (t : SecondOrStepTimer) (step now : Z) : SecondOrStepTimer :=
  Timer (every_secs t) (Some (step, now)).

(** [_StopOnPredicateHook.after_run] for the global step of the run. *)
Definition after_run (should_stop_fn : PY pyval) (t : SecondOrStepTimer) (global_step now : Z)
    : PY (SecondOrStepTimer * bool) :=
  if should_trigger_for_step t global_step now then
    let t := update_last_triggered_step t global_step now in
    let* should_stop := should_stop_fn in
    stx_ret (t, truthy should_stop)
  else stx_ret (t, false).

(** The runs of the training loop, each with its global step and clock
    reading, until the hook requests a stop: the index of the run after
    which it did, or [None] when the runs ran out first. *)
Fixpoint monitored_loop (should_stop_fn : PY pyval) (t : SecondOrStepTimer)
    (runs : list (Z * Z)) : PY (option nat) :=
  match runs with
  | [] => stx_ret None
  | (global_step, now) :: runs' =>
      let* r := after_run should_stop_fn t global_step now in
      if r.2 then stx_ret (Some 0)
      else let* k := monitored_loop should_stop_fn r.1 runs' in stx_ret (S <$> k)
  end.

(** The index of the first run for which a timer that has not triggered
    since [t] triggers. *)
Fixpoint first_trigger (t : SecondOrStepTimer) (runs : list (Z * Z)) : option nat :=
  match runs with
  | [] => None
  | (global_step, now) :: runs' =>
      if should_trigger_for_step t global_step now then Some 0 else S <$> first_trigger t runs'
  end.

(** The value of the flag as [should_stop_fn] returns it. *)
Definition stop_flag (w : World) : pyval := default (PyBool false) (w_globals w !! "should_stop").

(** ** Lemmas *)

Lemma should_stop_fn_run w :
  should_stop_fn w = (add_logs [LogRecord INFO "should_stop_fn is called" []] w, Ok (stop_flag w)).
Proof. reflexivity. Qed.

Lemma stop_flag_add_logs es w : stop_flag (add_logs es w) = stop_flag w.
Proof. reflexivity. Qed.

Lemma after_run_run t step now w :
  after_run should_stop_fn t step now w
  = if should_trigger_for_step t step now
    then (add_logs [LogRecord INFO "should_stop_fn is called" []] w,
          Ok (update_last_triggered_step t step now, truthy (stop_flag w)))
    else (w, Ok (t, false)).
Proof. unfold after_run. destruct (should_trigger_for_step t step now); [|done]. reflexivity. Qed.

Lemma first_trigger_le t runs : forall i step now ls lt,
  last_triggered t = Some (ls, lt) -> runs !! i = Some (step, now) -> step <> ls ->
  (lt + every_secs t <= now)%Z ->
  exists k, first_trigger t runs = Some k /\ (k <= i)%nat.
Proof.
  induction runs as [|[st nw] runs IH]; intros i step now ls lt Ht Hi Hs Hn; [done|]. simpl.
  destruct (should_trigger_for_step t st nw) eqn:Htr; [exists 0%nat; split; [done|lia]|].
  destruct i as [|i]; simpl in Hi.
  - injection Hi as -> ->. unfold should_trigger_for_step in Htr. rewrite Ht in Htr.
    rewrite decide_False in Htr by congruence. apply bool_decide_eq_false in Htr. lia.
  - destruct (IH i step now ls lt Ht Hi Hs Hn) as (k & -> & Hk). exists (S k). split; [done|lia].
Qed.

(** ** Polling and stopping *)

(** C26. The training loop stops exactly after the first run for which the
    timer triggers when the flag read by [should_stop_fn] is truthy, and
    never when it is not: the flag is read at each trigger, not cached, and
    nothing in the loop changes it. *)
Theorem monitored_loop_result t runs w :
  (monitored_loop should_stop_fn t runs w).2
  = Ok (if truthy (stop_flag w) then first_trigger t runs else None).
Proof.
  revert t w. induction runs as [|[step now] runs IH]; intros t w; simpl.
  - by destruct (truthy (stop_flag w)).
  - unfold stx_bind at 1. rewrite after_run_run.
    destruct (should_trigger_for_step t step now); simpl.
    + destruct (truthy (stop_flag w)) eqn:Hf; [done|]. unfold stx_bind.
      pose proof (IH (update_last_triggered_step t step now)
                     (add_logs [LogRecord INFO "should_stop_fn is called" []] w)) as H.
      rewrite stop_flag_add_logs, Hf in H.
      destruct (monitored_loop _ _ _ _) as [w' [k|e]]; simpl in *; by simplify_eq.
    + unfold stx_bind. pose proof (IH t w) as H.
      destruct (monitored_loop _ _ _ _) as [w' [k|e]]; simpl in *; [|done].
      injection H as ->. by destruct (truthy (stop_flag w)).
Qed.

(** C27. With the code's [run_every_secs=10], a timer that last
    triggered at global step [ls] and time [lt], and a truthy flag: when
    every run advances the global step past [ls] and takes at least a
    second, the training loop stops after one of its first ten runs. *)
Theorem monitored_loop_stops_within t runs w ls lt :
  every_secs t = run_every_secs -> last_triggered t = Some (ls, lt) ->
  truthy (stop_flag w) = true -> (10 <= length runs)%nat ->
  (forall i step now, runs !! i = Some (step, now) -> step <> ls /\ (lt + Z.of_nat i + 1 <= now)%Z) ->
  exists k, (monitored_loop should_stop_fn t runs w).2 = Ok (Some k) /\ (k < 10)%nat.
Proof.
  intros Hsecs Ht Hf Hlen Hruns.
  destruct (lookup_lt_is_Some_2 runs 9) as [[step now] H9]; [lia|].
  destruct (Hruns 9%nat step now H9) as [Hs Hn].
  destruct (first_trigger_le t runs 9 step now ls lt Ht H9 Hs) as (k & Hk & Hle); [rewrite Hsecs; unfold run_every_secs; lia|].
  exists k. rewrite monitored_loop_result, Hf, Hk. split; [done|lia].
Qed.

End StopHook.

(** ** Concrete runs *)

(** A timer that last triggered at global step 5 and time 100, ten runs of
    one second each from step 6, and a world whose flag is set. *)
Definition timer_5_100 : StopHook.SecondOrStepTimer := StopHook.Timer 10 (Some (5%Z, 100%Z)).
Definition ten_runs : list (Z * Z) := map (fun i => (6 + Z.of_nat i, 101 + Z.of_nat i)%Z) (seq 0 10).
Definition world_flag_set : World := mkWorld ∅ ∅ ∅ {["should_stop" := PyBool true]} 1 [].

Lemma monitored_loop_stops_within_witness :
  StopHook.every_secs timer_5_100 = run_every_secs /\ StopHook.last_triggered timer_5_100 = Some (5%Z, 100%Z) /\
  truthy (StopHook.stop_flag world_flag_set) = true /\ (10 <= length ten_runs)%nat /\
  (forall i step now, ten_runs !! i = Some (step, now) -> step <> 5%Z /\ (100 + Z.of_nat i + 1 <= now)%Z) /\
  exists k, (StopHook.monitored_loop should_stop_fn timer_5_100 ten_runs world_flag_set).2 = Ok (Some k)
            /\ (k < 10)%nat.
Proof.
  assert (Hruns : forall i step now, ten_runs !! i = Some (step, now) ->
                    step <> 5%Z /\ (100 + Z.of_nat i + 1 <= now)%Z).
  { intros i step now Hi. unfold ten_runs in Hi. rewrite list_lookup_fmap in Hi.
    destruct (seq 0 10 !! i) as [j|] eqn:Hj; [|done]. apply lookup_seq in Hj as [-> _].
    simpl in Hi. injection Hi as <- <-. lia. }
  do 4 (split; [reflexivity|]). split; [exact Hruns|].
  apply (StopHook.monitored_loop_stops_within _ _ _ 5 100); [reflexivity|reflexivity|reflexivity|simpl; lia|exact Hruns].
Defined.
