(* ===== verification/Process.v ===== *)
(** * The process: installation, engine calls and the stop flag

    The process-wide state is the world and the current value of the class
    attribute [Estimator._call_model_fn]. A step is one of: an installation
    by [hook_estimator_call_model_fn]; a call of the attribute by the engine
    (returning or raising); an external write of the stop flag into
    [GlobalDict]; a poll of [should_stop_fn] by the monitoring hook.
    [reachable] is the reflexive-transitive closure. By rule induction the
    heap stays well formed, every list of the initial world is only ever
    extended with early-stopping hooks (the caller's configured lists grow
    by one such hook per merging call, and nothing else touches them), and
    no dict is changed. [call_model_fn_n] runs [n] engine calls through
    one value of the attribute; through one installation they append
    exactly [n] early-stopping hooks to the caller's training list. *)

From S2P Require Import Prelude PyRuntime Heap Merger EstimatorSpec AppendHooks Engine Wrapper.
Import HookMerger AppendHooks Wrapper WrapperFacts.

Record Proc := mkProc { p_world : World; p_attr : call_model_fn_attr }.

Module Process.
Section Process.
Context {E : Engine} {EL : EngineLaws E} {EF : EngineFrame E}.

(** ** Steps *)

Inductive step : Proc -> Proc -> Prop :=
  | step_install params p :
      step p (mkProc (p_world p) (hook_estimator_call_model_fn params (p_attr p)))
  | step_call self args p :
      step p (mkProc (call_model_fn (p_attr p) self args (p_world p)).1 (p_attr p))
  | step_set_flag v p :
      step p (mkProc (global_set "should_stop" v (p_world p)).1 (p_attr p))
  | step_poll p :
      step p (mkProc (should_stop_fn (p_world p)).1 (p_attr p)).

Definition reachable : Proc -> Proc -> Prop := rtc step.

(** A hook built by [make_early_stopping_hook] for some estimator. *)
Definition is_stop_hook (h : hook) : Prop :=
  exists est : estimator, hook_class h = early_stopping_hook_class est.

(** What a step may do to the heap. *)
Definition heap_evolves (w w' : World) : Prop :=
  lists_extend_by is_stop_hook w w' /\ dicts_kept w w'.

(** ** Lemmas *)

Lemma heap_evolves_refl w : heap_evolves w w.
Proof. split; reflexivity. Qed.
#[local] Hint Resolve heap_evolves_refl : wsam.

Lemma heap_evolves_trans w1 w2 w3 :
  heap_evolves w1 w2 -> heap_evolves w2 w3 -> heap_evolves w1 w3.
Proof. intros [H1 D1] [H2 D2]. split; etrans; eauto. Qed.

Lemma heap_evolves_same w w' :
  w_lists w' = w_lists w -> w_dicts w' = w_dicts w -> heap_evolves w w'.
Proof.
  intros Hl Hd. split; [by apply lists_extend_by_same_lists|].
  intros d m Hm. by rewrite Hd.
Qed.

Lemma dict_lookup_allocated w d k l :
  wf_world w -> dict_lookup d k w = Some l -> l ∈ dom (w_lists w).
Proof.
  intros (_ & _ & Hv) Hl. unfold dict_lookup in Hl. rewrite lookup_total_alt in Hl.
  destruct (w_dicts w !! d) as [m|] eqn:Hd; simpl in Hl; [eauto|].
  by rewrite lookup_empty in Hl.
Qed.

Lemma stop_hook_is_stop_hook self w : is_stop_hook (stop_hook self w).
Proof. by exists self. Qed.

Lemma after_alloc_evolves w : wf_world w -> wf_world (after_alloc w) /\ heap_evolves w (after_alloc w).
Proof. intros Hwf. split; [by apply (wf_alloc w)|by apply heap_evolves_same]. Qed.

(** One call of a dlrover closure keeps the heap well formed and only
    extends lists with early-stopping hooks, provided the captured method
    does. *)
Lemma dlrover_call_model_fn_evolves params inner self a w :
  wf_world w ->
  (forall w', wf_world w' -> wf_world (inner self a w').1 /\ heap_evolves w' (inner self a w').1) ->
  wf_world (dlrover_call_model_fn params inner self a w).1 /\
  heap_evolves w (dlrover_call_model_fn params inner self a w).1.
Proof.
  intros Hwf Hinner.
  destruct (after_alloc_evolves w Hwf) as [Hwf1 Hev1].
  destruct (Hinner (after_alloc w) Hwf1) as [Hwf2 Hev2].
  destruct (inner self a (after_alloc w)) as [w2 [res|e]] eqn:Hc; simpl in Hwf2, Hev2.
  2: { rewrite (dlrover_call_model_fn_raises _ _ _ _ _ _ _ Hc). split; [done|]. by eapply heap_evolves_trans. }
  destruct params as [d|].
  2: { rewrite dlrover_call_model_fn_no_params, Hc. split; [done|]. by eapply heap_evolves_trans. }
  destruct (dict_truthy (Some d) w2) eqn:Ht.
  2: { rewrite (dlrover_call_model_fn_falsy_params _ _ _ _ _ _ _ Hc Ht). split; [done|]. by eapply heap_evolves_trans. }
  assert (Hev12 : heap_evolves w w2) by (by eapply heap_evolves_trans).
  destruct (dict_lookup d (key_name TrainingHooks) w2) as [l|] eqn:Hl.
  - destruct (decide (l ∈ w_tuples w2)) as [Htup|Htup].
    { rewrite (dlrover_call_model_fn_tuple _ _ _ _ _ _ _ _ Hc Ht Hl Htup). by split. }
    destruct (dlrover_call_model_fn_with_list _ _ _ _ _ _ _ _ Hc Ht Hl Htup) as [es ->]. simpl.
    split.
    + apply wf_add_logs, wf_list_append; [done|]. by eapply dict_lookup_allocated.
    + eapply heap_evolves_trans; [exact Hev12|]. split.
      * apply list_append_extends, stop_hook_is_stop_hook.
      * intros d' m Hm. simpl. by rewrite list_append_dicts.
  - destruct (dlrover_call_model_fn_new_list _ _ _ _ _ _ _ Hc Ht Hl) as [es ->]. simpl.
    assert (Hwf3 : wf_world (new_list w2).1) by (by apply wf_new_list).
    split.
    + apply wf_add_logs, (wf_list_append _ _ (new_list w2).1); [done|].
      simpl. rewrite dom_insert_L. set_solver.
    + eapply heap_evolves_trans; [exact Hev12|]. eapply heap_evolves_trans.
      * split; [by apply (new_list_extends _ w2)|]. by intros d' m Hm.
      * split; [apply (list_append_extends _ _ _ (new_list w2).1), stop_hook_is_stop_hook|].
        intros d' m Hm. simpl. by rewrite list_append_dicts.
Qed.

Lemma call_model_fn_evolves (attr : call_model_fn_attr) :
  forall self a w, wf_world w ->
    wf_world (call_model_fn attr self a w).1 /\ heap_evolves w (call_model_fn attr self a w).1.
Proof.
  induction attr as [|params inner IH]; intros self a w Hwf; simpl.
  - split; [by apply tf_call_model_fn_wf|]. split; [|apply tf_call_model_fn_dicts].
    eapply lists_extend_by_weaken; [|apply tf_call_model_fn_lists]. done.
  - apply dlrover_call_model_fn_evolves; [done|]. intros w' Hw'. by apply IH.
Qed.

Lemma step_evolves p p' :
  step p p' -> wf_world (p_world p) ->
  wf_world (p_world p') /\ heap_evolves (p_world p) (p_world p').
Proof.
  intros Hs Hwf. destruct Hs; simpl.
  - split; eauto with wsam.
  - by apply call_model_fn_evolves.
  - split; [eauto with wsam|by apply heap_evolves_same].
  - split; [done|by apply heap_evolves_same].
Qed.

(** ** Invariants of reachable states *)

(** C9. From a well-formed start, every reachable state has a well-formed
    heap, every list of the start is still there with only early-stopping
    hooks appended at its end (the caller's [params] lists included), and
    every dict of the start is unchanged. *)
Theorem reachable_heap_invariant p0 p :
  wf_world (p_world p0) -> reachable p0 p ->
  wf_world (p_world p) /\
  lists_extend_by is_stop_hook (p_world p0) (p_world p) /\
  dicts_kept (p_world p0) (p_world p).
Proof.
  intros Hwf0 Hr. cut (wf_world (p_world p) /\ heap_evolves (p_world p0) (p_world p)).
  { intros [Hw [Hl Hd]]. split; [exact Hw|split; [exact Hl|exact Hd]]. }
  revert Hwf0. induction Hr as [p|p1 p2 p3 Hs Hr IH]; intros Hwf0.
  - split; [done|apply heap_evolves_refl].
  - destruct (step_evolves p1 p2 Hs Hwf0) as [Hwf2 Hev2].
    destruct (IH Hwf2) as [Hwf3 Hev3]. split; [done|]. by eapply heap_evolves_trans.
Qed.

(** ** Repeated calls through one installation *)

(** [n] successive engine calls of the attribute [attr] with the same
    arguments, from [w]. *)
Fixpoint call_model_fn_n (attr : call_model_fn_attr) (self : estimator) (a : model_fn_args)
    (n : nat) (w : World) : World :=
  match n with
  | 0 => w
  | S n => call_model_fn_n attr self a n (call_model_fn attr self a w).1
  end.

Lemma call_model_fn_n_reachable attr self a n w :
  reachable (mkProc w attr) (mkProc (call_model_fn_n attr self a n w) attr).
Proof.
  revert w. induction n as [|n IH]; intros w; simpl; [apply rtc_refl|].
  eapply rtc_l; [apply (step_call self a (mkProc w attr))|]. apply IH.
Qed.

Lemma dicts_kept_dict d w w' :
  dicts_kept w w' -> dict_truthy (Some d) w = true ->
  dict_truthy (Some d) w' = true /\ forall k, dict_lookup d k w' = dict_lookup d k w.
Proof.
  intros Hk Ht. unfold dict_truthy, dict_lookup in *. rewrite !lookup_total_alt in *.
  destruct (w_dicts w !! d) as [m|] eqn:Hd; [|done]. by rewrite (Hk d m Hd).
Qed.

Lemma lists_kept_contents w w' l :
  lists_extend_by (fun _ => False) w w' -> l ∈ dom (w_lists w) ->
  list_contents l w' = list_contents l w.
Proof.
  intros Hk [xs Hxs]%elem_of_dom. destruct (Hk l xs Hxs) as (ys & Hys & HF).
  destruct ys as [|y ys]; [|by inversion HF]. unfold list_contents.
  by rewrite !lookup_total_alt, Hys, Hxs, app_nil_r.
Qed.

Section Repeated.
(** TensorFlow's method returns in these runs (it raises nothing). *)
Hypothesis tf_call_model_fn_returns :
  forall self a w, exists r, (tf_call_model_fn self a w).2 = Ok r.

(** One call through [hook_estimator_call_model_fn(params)] installed once
    appends exactly its early-stopping hook to the caller's training list
    and leaves [params] as it was. *)
Lemma call_once_appends d self a w l :
  wf_world w -> dict_truthy (Some d) w = true -> dict_lookup d (key_name TrainingHooks) w = Some l ->
  l ∉ w_tuples w ->
  let w' := (call_model_fn (hook_estimator_call_model_fn (Some d) TFCallModelFn) self a w).1 in
  wf_world w' /\ dict_truthy (Some d) w' = true /\
  dict_lookup d (key_name TrainingHooks) w' = Some l /\ (l ∉ w_tuples w') /\
  list_contents l w' = list_contents l w ++ [stop_hook self w].
Proof.
  intros Hwf Ht Hl Hlt w'.
  assert (Hdom : l ∈ dom (w_lists (after_alloc w)))
    by (by eapply (dict_lookup_allocated (after_alloc w)); [apply wf_alloc|]).
  destruct (call_model_fn_evolves (hook_estimator_call_model_fn (Some d) TFCallModelFn) self a w Hwf)
    as [Hwf' [_ Hd']].
  destruct (tf_call_model_fn_returns self a (after_alloc w)) as [res Hres].
  destruct (tf_call_model_fn self a (after_alloc w)) as [w2 r2] eqn:Htf; simpl in Hres; subst r2.
  pose proof (tf_call_model_fn_dicts self a (after_alloc w)) as Hd2. rewrite Htf in Hd2.
  pose proof (tf_call_model_fn_lists self a (after_alloc w)) as Hl2. rewrite Htf in Hl2.
  pose proof (tf_call_model_fn_kinds self a (after_alloc w) l Hdom) as Hk2. rewrite Htf in Hk2.
  assert (Hlt2 : l ∉ w_tuples w2) by (rewrite Hk2; exact Hlt).
  destruct (dicts_kept_dict d (after_alloc w) w2 Hd2 Ht) as [Ht2 Hlk2].
  destruct (dicts_kept_dict d w w' Hd' Ht) as [Ht' Hlk'].
  split; [done|]. split; [done|]. split; [by rewrite Hlk'|].
  assert (Hlw2 : dict_lookup d (key_name TrainingHooks) w2 = Some l) by (rewrite Hlk2; exact Hl).
  destruct (dlrover_call_model_fn_with_list d tf_call_model_fn self a w w2 res l Htf Ht2 Hlw2 Hlt2)
    as [es Hrun].
  unfold w'. simpl. rewrite Hrun. simpl. split; [by rewrite list_append_tuples|].
  rewrite list_contents_add_logs, list_contents_append by done.
  by rewrite (lists_kept_contents (after_alloc w) w2 l Hl2).
Qed.

(** C10. [params] is captured once, at installation, and the early-stopping
    hook is appended to the caller's own training list: after [n] calls
    through one installation that list holds its first hooks followed by
    [n] hooks of the early-stopping class, one per call, and [params] still
    holds it. The list grows without bound; nothing removes them. *)
Theorem call_model_fn_n_training_list d self a n w l :
  wf_world w -> dict_truthy (Some d) w = true -> dict_lookup d (key_name TrainingHooks) w = Some l ->
  l ∉ w_tuples w ->
  exists hs,
    list_contents l (call_model_fn_n (hook_estimator_call_model_fn (Some d) TFCallModelFn) self a n w)
    = list_contents l w ++ hs /\ length hs = n /\
    Forall (fun h => hook_class h = early_stopping_hook_class self) hs.
Proof.
  revert w. induction n as [|n IH]; intros w Hwf Ht Hl Hlt; cbn [call_model_fn_n].
  - exists []. rewrite app_nil_r. split; [done|]. split; [done|constructor].
  - destruct (call_once_appends d self a w l Hwf Ht Hl Hlt) as (Hwf' & Ht' & Hl' & Hlt' & Hc).
    destruct (IH _ Hwf' Ht' Hl' Hlt') as (hs & Hhs & Hlen & HF).
    exists (stop_hook self w :: hs). rewrite Hhs, Hc, <-app_assoc.
    split; [done|]. split; [simpl; lia|]. by constructor.
Qed.

End Repeated.

End Process.

(** ** A concrete run: install, then one call on [toy_engine] *)

Definition proc0 : Proc := mkProc (wrap_world wt) TFCallModelFn.
Definition attr1 : call_model_fn_attr := hook_estimator_call_model_fn (Some 1%positive) TFCallModelFn.
Definition proc2 : Proc :=
  mkProc (@call_model_fn toy_engine attr1 true tt (wrap_world wt)).1 attr1.

Lemma reachable_heap_invariant_witness :
  wf_world (p_world proc0) /\ @reachable toy_engine proc0 proc2 /\
  (wf_world (p_world proc2) /\
   lists_extend_by (@is_stop_hook toy_engine) (p_world proc0) (p_world proc2) /\
   dicts_kept (p_world proc0) (p_world proc2)).
Proof.
  assert (Hwf : wf_world (p_world proc0)) by (apply wf_worldb_sound; vm_compute; reflexivity).
  assert (Hr : @reachable toy_engine proc0 proc2).
  { eapply rtc_l; [apply (@step_install toy_engine (Some 1%positive) proc0)|].
    eapply rtc_l; [apply (@step_call toy_engine true tt)|]. apply rtc_refl. }
  concrete_facts.
  apply (@reachable_heap_invariant toy_engine _ _); concrete_fact.
Defined.

Lemma toy_tf_returns (self : bool) (a : unit) (w : World) :
  exists r, (@tf_call_model_fn toy_engine self a w).2 = Ok r.
Proof. by eexists. Qed.

Lemma call_model_fn_n_training_list_witness :
  (forall self a w, exists r, (@tf_call_model_fn toy_engine self a w).2 = Ok r) /\
  wf_world (wrap_world wt) /\ dict_truthy (Some 1%positive) (wrap_world wt) = true /\
  dict_lookup 1 (key_name TrainingHooks) (wrap_world wt) = Some 2%positive /\
  (2%positive ∉ w_tuples (wrap_world wt)) /\
  exists hs,
    list_contents 2 (@call_model_fn_n toy_engine (hook_estimator_call_model_fn (Some 1%positive) TFCallModelFn)
                       true tt 3 (wrap_world wt))
    = list_contents 2 (wrap_world wt) ++ hs /\ length hs = 3 /\
    Forall (fun h => hook_class h = @early_stopping_hook_class toy_engine true) hs.
Proof.
  assert (Hwf : wf_world (wrap_world wt)) by (apply wf_worldb_sound; vm_compute; reflexivity).
  split; [exact toy_tf_returns|]. concrete_facts.
  apply (@call_model_fn_n_training_list toy_engine _ _ toy_tf_returns); concrete_fact.
Defined.

End Process.
